(** * grapevine-search: the Wikimedia image-search proxy of [server.js]

    A shallow embedding of the request pipeline of [server.js]
    ([passesSafeFilter], [searchWikimedia] and the [GET /api/search]
    handler) together with the properties of its specification.

    Conventions of the embedding.

    - A JavaScript string is a [string]: every character stands for one
      UTF-16 code unit in the range 0..255.  On that range the built-ins
      used by the program ([trim], [toLowerCase], [includes], [parseInt])
      are defined exactly as ECMAScript defines them.
      [encodeURIComponent] is defined on arbitrary sequences of code
      units, with its [URIError] on a lone surrogate, and applied to the
      code units of a [string].
    - A JavaScript number is a [Num]: [NaN], an infinity, or [Int z], the
      double whose value is the integer [z] (the values [parseInt] can
      return and the integer fields of the upstream payload).  Every
      operation rounds its exact result to the nearest double, ties to
      even, as IEEE 754 arithmetic does; [String] writes the shortest
      digits that read back as the same double, in exponent notation
      from 1e21 on.
    - A JavaScript value built by [JSON.parse], by the query-string parser
      or by an object literal is a [JsVal].
    - A synchronous computation that may throw is a [Res]; an [async]
      function is an [Eff], which also records the observable events
      (upstream calls, log lines) in order. *)

From Stdlib Require Import ZArith List String Ascii Bool Lia.
From Stdlib Require Import DecimalString Sorted Permutation.
From Stdlib Require DecimalPos DecimalZ.
Import ListNotations.

#[local] Set Warnings "-register-all".

Local Open Scope string_scope.
Local Open Scope list_scope.
Local Open Scope Z_scope.

(* ================================================================= *)
(** ** Values *)

Module Js.

(** Numbers: [NaN], the double of integer value [z], or an infinity. *)
Inductive Num : Type :=
| NaN
| Int (z : Z)
| Inf (negative : bool).

(** Values.  [JObj ps] is an ordinary object given by the sequence [ps]
    of property definitions that built it: the members of a JSON object
    in the order of the text ([JSON.parse] defines them in that order) or
    the fields of an object literal.  Defining a key again replaces the
    value and keeps the position of the first definition. *)
Inductive JsVal : Type :=
| JUndef
| JNull
| JBool (b : bool)
| JNum (n : Num)
| JStr (s : string)
| JArr (items : list JsVal)
| JObj (props : list (string * JsVal)).

(** Exceptions.  [Error m] is [new Error(m)] thrown by the program;
    [TypeError] is raised by the engine (property read on [null] or
    [undefined], call of a non-function, failed conversion to a
    primitive); [Rejected m] is a rejection of [fetch] or of
    [res.json()] with message [m]; [URIError] is raised by
    [encodeURIComponent] on a lone surrogate. *)
Inductive Exn : Type :=
| Error (message : string)
| TypeError
| Rejected (message : string)
| URIError.

(** The [message] property of an exception: a text, or the text the
    engine chose for a [TypeError] or a [URIError] (never empty,
    otherwise unspecified). *)
Inductive Message : Type :=
| Text (s : string)
| EngineText.

Definition message (e : Exn) : Message :=
  match e with
  | Error m => Text m
  | TypeError => EngineText
  | Rejected m => Text m
  | URIError => EngineText
  end.

(** Synchronous code that may throw. *)
Inductive Res (A : Type) : Type :=
| Ok (a : A)
| Throw (e : Exn).
Arguments Ok {A} a.
Arguments Throw {A} e.

Definition bind {A B} (r : Res A) (k : A -> Res B) : Res B :=
  match r with
  | Ok a => k a
  | Throw e => Throw e
  end.

Fixpoint mapM {A B} (f : A -> Res B) (l : list A) : Res (list B) :=
  match l with
  | [] => Ok []
  | x :: r => bind (f x) (fun y => bind (mapM f r) (fun ys => Ok (y :: ys)))
  end.

End Js.
Import Js.

Declare Scope js_scope.
Delimit Scope js_scope with js.
Notation "'let*' x ':=' c 'in' k" := (bind c (fun x => k))
  (at level 10, x name, c at level 100, k at level 200) : js_scope.
Local Open Scope js_scope.

(* ================================================================= *)
(** ** Built-ins on strings *)

Module Str.

Definition code (c : ascii) : Z := Z.of_N (N_of_ascii c).
Definition unit (z : Z) : ascii := ascii_of_N (Z.to_N z).

Definition between (lo hi : Z) (c : ascii) : bool :=
  (lo <=? code c) && (code c <=? hi).

(** [WhiteSpace] and [LineTerminator] code units below 256: TAB, LF, VT,
    FF, CR, SP and NBSP. *)
Definition isWhiteSpace (c : ascii) : bool :=
  between 9 13 c || (code c =? 32) || (code c =? 160).

Fixpoint trimStart (s : string) : string :=
  match s with
  | EmptyString => EmptyString
  | String c r => if isWhiteSpace c then trimStart r else s
  end.

Fixpoint trimEnd (s : string) : string :=
  match s with
  | EmptyString => EmptyString
  | String c r =>
      match trimEnd r with
      | EmptyString => if isWhiteSpace c then EmptyString else String c EmptyString
      | r' => String c r'
      end
  end.

(** [String.prototype.trim]. *)
Definition trim (s : string) : string := trimEnd (trimStart s).

(** [String.prototype.toLowerCase] on code units below 256: the letters
    A-Z and the Latin-1 capitals U+00C0-U+00DE (except the multiplication
    sign U+00D7) move up by 32; everything else is unchanged. *)
Definition lowerUnit (c : ascii) : ascii :=
  if between 65 90 c || (between 192 222 c && negb (code c =? 215))
  then unit (code c + 32)
  else c.

Fixpoint toLowerCase (s : string) : string :=
  match s with
  | EmptyString => EmptyString
  | String c r => String (lowerUnit c) (toLowerCase r)
  end.

(** [String.prototype.includes]: does [pat] occur in [s]? *)
Fixpoint includes (s pat : string) : bool :=
  if prefix pat s then true
  else match s with
       | EmptyString => false
       | String _ r => includes r pat
       end.

(** [s.replace(/<[^>]+>/g, '')].  The scan keeps the text after the last
    unmatched [<] in [held]: a [>] closes the span when at least one
    character was held, and an immediately following [>] (the text [<>])
    is no match, so both characters stay. *)
Fixpoint stripFrom (held : option string) (s : string) : string :=
  match s, held with
  | EmptyString, None => EmptyString
  | EmptyString, Some h => String "<" h
  | String c r, None =>
      if (c =? "<")%char then stripFrom (Some EmptyString) r
      else String c (stripFrom None r)
  | String c r, Some h =>
      if (c =? ">")%char then
        match h with
        | EmptyString => String "<" (String ">" (stripFrom None r))
        | _ => stripFrom None r
        end
      else stripFrom (Some (h ++ String c EmptyString)%string) r
  end.

Definition stripTags (s : string) : string := stripFrom None s.

Definition hexDigit (z : Z) : ascii :=
  if z <? 10 then unit (48 + z) else unit (55 + z).

Definition percent (byte : Z) : string :=
  String "%" (String (hexDigit (byte / 16)) (String (hexDigit (byte mod 16)) EmptyString)).

(** Characters [encodeURIComponent] leaves alone: letters, digits and
    [- _ . ! ~ * ' ( )]. *)
Definition isUnreserved (c : ascii) : bool :=
  between 65 90 c || between 97 122 c || between 48 57 c ||
  existsb (fun z => code c =? z) [45; 95; 46; 33; 126; 42; 39; 40; 41].

Definition isUnreservedUnit (u : Z) : bool :=
  (0 <=? u) && (u <? 128) && isUnreserved (unit u).

(** The percent-escapes of the UTF-8 bytes of a code point. *)
Definition utf8 (cp : Z) : string :=
  if cp <? 128 then percent cp
  else if cp <? 2048 then
    (percent (192 + cp / 64) ++ percent (128 + cp mod 64))%string
  else if cp <? 65536 then
    (percent (224 + cp / 4096) ++ percent (128 + (cp / 64) mod 64)
     ++ percent (128 + cp mod 64))%string
  else
    (percent (240 + cp / 262144) ++ percent (128 + (cp / 4096) mod 64)
     ++ percent (128 + (cp / 64) mod 64) ++ percent (128 + cp mod 64))%string.

Definition isHighSurrogate (u : Z) : bool := (55296 <=? u) && (u <=? 56319).
Definition isLowSurrogate (u : Z) : bool := (56320 <=? u) && (u <=? 57343).

(** What [encodeURIComponent] writes for one code point. *)
Definition escapeCode (cp : Z) : string :=
  if isUnreservedUnit cp then String (unit cp) EmptyString else utf8 cp.

(** [encodeURIComponent] on a sequence of UTF-16 code units: an
    unreserved character is kept, every other code point is replaced by
    the percent-escapes of its UTF-8 bytes; a surrogate pair is one code
    point, and a surrogate outside a pair is a [URIError]. *)
Fixpoint encodeUnits (units : list Z) : Res string :=
  match units with
  | [] => Ok EmptyString
  | u :: rest =>
      if isLowSurrogate u then Throw URIError
      else if isHighSurrogate u then
        match rest with
        | v :: rest' =>
            if isLowSurrogate v then
              match encodeUnits rest' with
              | Ok tail =>
                  Ok (utf8 ((u - 55296) * 1024 + (v - 56320) + 65536)
                      ++ tail)%string
              | Throw e => Throw e
              end
            else Throw URIError
        | [] => Throw URIError
        end
      else
        match encodeUnits rest with
        | Ok tail => Ok (escapeCode u ++ tail)%string
        | Throw e => Throw e
        end
  end.

(** The code units of a string. *)
Fixpoint units (s : string) : list Z :=
  match s with
  | EmptyString => []
  | String c r => code c :: units r
  end.

(** [encodeURIComponent(s)]. *)
Definition encodeURIComponent (s : string) : Res string :=
  encodeUnits (units s).

End Str.

(* ================================================================= *)
(** ** Built-ins on numbers *)

Module Number.

(** The largest integer up to which every integer is a double: 2^53. *)
Definition maxSafe : Z := 9007199254740992.

(** The double nearest to the integer [z], ties to even: [z] itself up
    to 2^53; beyond, the 53 leading bits are kept and the rest is
    rounded; an infinity from 2^1024 on. *)
Definition fromInteger (z : Z) : Num :=
  let a := Z.abs z in
  if a <=? maxSafe then Int z
  else
    let e := Z.log2 a - 52 in
    let q := a / 2 ^ e in
    let r := a mod 2 ^ e in
    let half := 2 ^ (e - 1) in
    let q' := if (half <? r) || ((r =? half) && Z.odd q) then q + 1 else q in
    let m := q' * 2 ^ e in
    if 2 ^ 1024 <=? m then Inf (z <? 0)
    else Int (if z <? 0 then - m else m).

Definition sameNumber (a b : Num) : bool :=
  match a, b with
  | Int x, Int y => x =? y
  | _, _ => false
  end.

(** The decimal digits of an integer. *)
Definition decimal (z : Z) : string := NilZero.string_of_int (Z.to_int z).

(** The digits [String] writes for a double [x] above 2^53 that has [D]
    decimal digits, if [k] digits are enough: [s] with [k] digits such
    that [s * 10^(D-k)] reads back as [x], the closest to [x] when there
    are two; the second component is the number of digits before the
    decimal point. *)
Definition digitsAt (x D k : Z) : option (Z * Z) :=
  let p := 10 ^ (D - k) in
  let lo := x / p in
  let hi := lo + 1 in
  let okLo := sameNumber (fromInteger (lo * p)) (Int x) in
  let okHi := sameNumber (fromInteger (hi * p)) (Int x) in
  let below := x - lo * p in
  let above := hi * p - x in
  let s :=
    if okLo && okHi then
      Some (if below <? above then lo
            else if above <? below then hi
            else if Z.even lo then lo else hi)
    else if okLo then Some lo
    else if okHi then Some hi
    else None in
  match s with
  | Some s => if s =? 10 ^ k then Some (1, D + 1) else Some (s, D)
  | None => None
  end.

(** The fewest digits that are enough, trying [k], [k + 1], ... *)
Fixpoint shortest (fuel : nat) (x D k : Z) : Z * Z :=
  match fuel with
  | O => (x, D)
  | S f =>
      match digitsAt x D k with
      | Some r => r
      | None => shortest f x D (k + 1)
      end
  end.

Fixpoint zeros (n : nat) : string :=
  match n with
  | O => EmptyString
  | S m => String "0" (zeros m)
  end.

(** [String(x)] for a double [x] above 2^53: the shortest digits,
    followed by zeros up to 21 digits, in exponent notation beyond. *)
Definition large (x : Z) : string :=
  let D := Z.of_nat (String.length (decimal x)) in
  let '(s, n) := shortest (Z.to_nat D) x D 1 in
  let ds := decimal s in
  let k := Z.of_nat (String.length ds) in
  if n <=? 21 then (ds ++ zeros (Z.to_nat (n - k)))%string
  else
    match ds with
    | String d EmptyString => String d ("e+" ++ decimal (n - 1))
    | String d rest => String d ("." ++ rest ++ "e+" ++ decimal (n - 1))
    | EmptyString => EmptyString
    end.

(** [String(n)] / [ToString] of a number: up to 2^53 the decimal digits
    of the integer. *)
Definition toString (n : Num) : string :=
  match n with
  | NaN => "NaN"
  | Inf false => "Infinity"
  | Inf true => "-Infinity"
  | Int z =>
      if Z.abs z <=? maxSafe then decimal z
      else if z <? 0 then String "-" (large (- z))
      else large z
  end.

(** [Math.max(a, b)] and [Math.min(a, b)]: [NaN] if either is [NaN]. *)
Definition max (a b : Num) : Num :=
  match a with
  | NaN => NaN
  | Int x =>
      match b with
      | NaN => NaN
      | Int y => Int (Z.max x y)
      | Inf false => Inf false
      | Inf true => Int x
      end
  | Inf false => match b with NaN => NaN | _ => Inf false end
  | Inf true => b
  end.

Definition min (a b : Num) : Num :=
  match a with
  | NaN => NaN
  | Int x =>
      match b with
      | NaN => NaN
      | Int y => Int (Z.min x y)
      | Inf false => Int x
      | Inf true => Inf true
      end
  | Inf true => match b with NaN => NaN | _ => Inf true end
  | Inf false => b
  end.

(** [a - b]: the double nearest to the exact difference. *)
Definition sub (a b : Num) : Num :=
  match a with
  | NaN => NaN
  | Int x =>
      match b with
      | NaN => NaN
      | Int y => fromInteger (x - y)
      | Inf s => Inf (negb s)
      end
  | Inf s =>
      match b with
      | NaN => NaN
      | Int _ => Inf s
      | Inf t => if Bool.eqb s t then NaN else Inf s
      end
  end.

(** [a * b]: the double nearest to the exact product. *)
Definition mul (a b : Num) : Num :=
  match a with
  | NaN => NaN
  | Int x =>
      match b with
      | NaN => NaN
      | Int y => fromInteger (x * y)
      | Inf t => if x =? 0 then NaN else Inf (xorb (x <? 0) t)
      end
  | Inf s =>
      match b with
      | NaN => NaN
      | Int y => if y =? 0 then NaN else Inf (xorb s (y <? 0))
      | Inf t => Inf (xorb s t)
      end
  end.

(** Value of a digit in the given radix. *)
Definition digitValue (radix : Z) (c : ascii) : option Z :=
  let d :=
    if Str.between 48 57 c then Some (Str.code c - 48)
    else if Str.between 97 122 c then Some (Str.code c - 87)
    else if Str.between 65 90 c then Some (Str.code c - 55)
    else None in
  match d with
  | Some v => if v <? radix then Some v else None
  | None => None
  end.

(** Reads the longest prefix of digits; [acc] is [None] until a digit
    was read. *)
Fixpoint readDigits (radix : Z) (acc : option Z) (s : string) : option Z :=
  match s with
  | EmptyString => acc
  | String c r =>
      match digitValue radix c with
      | Some v =>
          readDigits radix
            (Some (match acc with Some a => a * radix + v | None => v end)) r
      | None => acc
      end
  end.

(** [parseInt(s)] without a radix argument: leading white space, an
    optional sign, an optional [0x]/[0X] prefix, then the longest run of
    digits; [NaN] when there is no digit, else the double nearest to the
    integer that was read (ECMAScript lets an engine ignore the digits
    after the 20th; V8, on which the server runs, rounds correctly). *)
Definition parseInt (s : string) : Num :=
  let s1 := Str.trimStart s in
  let '(negative, s2) :=
    match s1 with
    | String "-" r => (true, r)
    | String "+" r => (false, r)
    | _ => (false, s1)
    end in
  let '(radix, s3) :=
    match s2 with
    | String "0" (String "x" r) => (16, r)
    | String "0" (String "X" r) => (16, r)
    | _ => (10, s2)
    end in
  match readDigits radix None s3 with
  | Some v => fromInteger (if negative then - v else v)
  | None => NaN
  end.

End Number.

(* ================================================================= *)
(** ** Coercions and property access *)

Module Val.

(** [ToBoolean]. *)
Definition truthy (v : JsVal) : bool :=
  match v with
  | JUndef | JNull => false
  | JBool b => b
  | JNum NaN => false
  | JNum (Int z) => negb (z =? 0)
  | JNum (Inf _) => true
  | JStr s => negb (s =? "")%string
  | JArr _ | JObj _ => true
  end.

(** [v === s] for a string [s]. *)
Definition strictEqStr (v : JsVal) (s : string) : bool :=
  match v with
  | JStr t => (t =? s)%string
  | _ => false
  end.

(** [a || b]. *)
Definition orElse (a b : JsVal) : JsVal := if truthy a then a else b.

(** The value a key was last defined with. *)
Fixpoint lookup (k : string) (ps : list (string * JsVal)) : option JsVal :=
  match ps with
  | [] => None
  | (k', v) :: r =>
      match lookup k r with
      | Some w => Some w
      | None => if (k =? k')%string then Some v else None
      end
  end.

(** [v?.k]: [undefined] on [null] and [undefined]; on an object the own
    property; [undefined] on every other value (none of the names the
    program reads is defined on a built-in prototype). *)
Definition prop (v : JsVal) (k : string) : JsVal :=
  match v with
  | JObj ps => match lookup k ps with Some w => w | None => JUndef end
  | _ => JUndef
  end.

(** [v.k]: a [TypeError] on [null] and [undefined]. *)
Definition get (v : JsVal) (k : string) : Res JsVal :=
  match v with
  | JUndef | JNull => Throw TypeError
  | _ => Ok (prop v k)
  end.

(** [ToString], as applied by [+] with a string operand, by template
    literals, by [parseInt] and by [encodeURIComponent].  An array is
    joined with commas ([null] and [undefined] elements give the empty
    string); an object gives ["[object Object]"], unless it has an own
    [toString] property, which is then not callable and makes the
    conversion fail. *)
Fixpoint toStr (v : JsVal) : Res string :=
  match v with
  | JUndef => Ok "undefined"
  | JNull => Ok "null"
  | JBool true => Ok "true"
  | JBool false => Ok "false"
  | JNum n => Ok (Number.toString n)
  | JStr s => Ok s
  | JArr items =>
      let element x :=
        match x with
        | JUndef | JNull => Ok ""
        | _ => toStr x
        end in
      (fix join (l : list JsVal) : Res string :=
         match l with
         | [] => Ok ""
         | [x] => element x
         | x :: r =>
             let* a := element x in
             let* b := join r in
             Ok (a ++ "," ++ b)%string
         end) items
  | JObj ps =>
      match lookup "toString" ps with
      | Some _ => Throw TypeError
      | None => Ok "[object Object]"
      end
  end.

(** [String(k)] is the canonical form of an array index: a decimal
    numeral without sign or leading zeros, at most 2^32 - 2. *)
Definition arrayIndex (k : string) : option Z :=
  match Number.readDigits 10 None k with
  | Some n =>
      if (Number.toString (Int n) =? k)%string && (n <=? 4294967294)
      then Some n else None
  | None => None
  end.

(** Defining property [k]: in place when the key exists, at the end
    otherwise. *)
Fixpoint define (k : string) (v : JsVal) (o : list (string * JsVal))
  : list (string * JsVal) :=
  match o with
  | [] => [(k, v)]
  | (k', v') :: r =>
      if (k =? k')%string then (k', v) :: r else (k', v') :: define k v r
  end.

(** The own properties in order of creation. *)
Definition ownProps (ps : list (string * JsVal)) : list (string * JsVal) :=
  fold_left (fun o kv => define (fst kv) (snd kv) o) ps [].

Fixpoint insertIndexed (e : Z * JsVal) (l : list (Z * JsVal))
  : list (Z * JsVal) :=
  match l with
  | [] => [e]
  | x :: r => if fst e <=? fst x then e :: l else x :: insertIndexed e r
  end.

Definition indexed (o : list (string * JsVal)) : list (Z * JsVal) :=
  flat_map (fun kv => match arrayIndex (fst kv) with
                      | Some n => [(n, snd kv)]
                      | None => []
                      end) o.

Definition named (o : list (string * JsVal)) : list (string * JsVal) :=
  filter (fun kv => match arrayIndex (fst kv) with
                    | Some _ => false
                    | None => true
                    end) o.

(** The values of an object in the order of property enumeration:
    array-index keys in ascending numeric order, then the other keys in
    order of creation. *)
Definition enumerate (ps : list (string * JsVal)) : list JsVal :=
  map snd (fold_right insertIndexed [] (indexed (ownProps ps)))
  ++ map snd (named (ownProps ps)).

Fixpoint units (s : string) : list JsVal :=
  match s with
  | EmptyString => []
  | String c r => JStr (String c EmptyString) :: units r
  end.

(** [Object.values(v)] for a value that is neither [null] nor
    [undefined]. *)
Definition values (v : JsVal) : list JsVal :=
  match v with
  | JObj ps => enumerate ps
  | JArr items => items
  | JStr s => units s
  | _ => []
  end.

End Val.
Import Val.

(* ================================================================= *)
(** ** The program *)

Definition BLACKLIST : list string :=
  ["porn"; "nsfw"; "nude"; "sex"; "erotic"; "explicit"; "scantily";
   "topless"; "bdsm"].

(** The [for] loop of [passesSafeFilter]: [false] at the first term that
    [lower] includes, [true] after the last one. *)
Fixpoint scanBlacklist (lower : string) (terms : list string) : bool :=
  match terms with
  | [] => true
  | bad :: rest =>
      if Str.includes lower bad then false else scanBlacklist lower rest
  end.

(** The default parameter [mode = "Strict"]: an absent argument is
    [undefined]. *)
Definition effectiveMode (mode : JsVal) : JsVal :=
  match mode with
  | JUndef => JStr "Strict"
  | _ => mode
  end.

(** [passesSafeFilter(item, mode = "Strict")]. *)
Definition passesSafeFilter (item mode : JsVal) : Res bool :=
  let mode := effectiveMode mode in
  if negb (truthy item) then Ok false
  else if negb (strictEqStr mode "Strict") then Ok true
  else
    let* title := toStr (orElse (prop item "title") (JStr "")) in
    let* description := toStr (orElse (prop item "description") (JStr "")) in
    let text := (title ++ " " ++ description)%string in
    let lower := Str.toLowerCase text in
    Ok (scanBlacklist lower BLACKLIST).

(** *** [searchWikimedia] *)

(** The request handed to [fetch]: the endpoint and the entries given to
    [URLSearchParams], whose serialisation is the query string. *)
Record UpstreamRequest : Type := mkRequest {
  endpoint : string;
  params : list (string * string)
}.

(** What [fetch] resolved to: [res.ok], [res.status] and the outcome of
    [res.json()]. *)
Record UpstreamResponse : Type := mkUpstream {
  ok : bool;
  status : Num;
  json : Res JsVal
}.

(** The upstream service: [fetch] resolves to a response or rejects. *)
Definition Upstream : Type := UpstreamRequest -> Res UpstreamResponse.

(** Observable events of a request. *)
Inductive Event : Type :=
| Fetch (request : UpstreamRequest)
| ConsoleError (label : string) (err : Exn).

(** An [async] computation: the events it caused and its outcome. *)
Definition Eff (A : Type) : Type := (list Event * Res A)%type.

(** [Math.max(0, (page - 1) * per_page)]. *)
Definition sroffset (page per_page : Num) : Num :=
  Number.max (Int 0) (Number.mul (Number.sub page (Int 1)) per_page).

Definition upstreamParams (query : string) (page per_page : Num)
  : list (string * string) :=
  [ ("action", "query");
    ("format", "json");
    ("generator", "search");
    ("gsrsearch", query);
    ("gsrlimit", Number.toString per_page);
    ("gsroffset", Number.toString (sroffset page per_page));
    ("prop", "imageinfo|pageimages|info");
    ("iiprop", "url|mime|size|extmetadata");
    ("piprop", "thumbnail");
    ("pithumbsize", "640");
    ("inprop", "url");
    ("origin", "*") ].

Definition upstreamRequest (query : string) (page per_page : Num)
  : UpstreamRequest :=
  mkRequest "https://commons.wikimedia.org/w/api.php"
            (upstreamParams query page per_page).

(** [Array.isArray(p.imageinfo) ? p.imageinfo[0] : null]. *)
Definition firstImageInfo (imageinfo : JsVal) : JsVal :=
  match imageinfo with
  | JArr (x :: _) => x
  | JArr [] => JUndef
  | _ => JNull
  end.

(** [typeof desc === "string" ? desc.replace(/<[^>]+>/g,'').trim() : ""]. *)
Definition cleanDescription (desc : JsVal) : string :=
  match desc with
  | JStr s => Str.trim (Str.stripTags s)
  | _ => ""
  end.

(** The callback of [Object.values(pages).map]: one page record to one
    result. *)
Definition normalize (p : JsVal) : Res JsVal :=
  let* imageinfo := get p "imageinfo" in
  let ii := firstImageInfo imageinfo in
  let thumbnail :=
    orElse (orElse (prop (prop p "thumbnail") "source")
                   (if truthy ii then prop ii "thumburl" else JNull))
           JNull in
  let contentUrl := orElse (prop ii "url") JNull in
  let desc :=
    orElse (orElse (prop (prop (prop ii "extmetadata") "ImageDescription") "value")
                   (prop p "extract"))
           (JStr "") in
  let* hostPage :=
    if truthy (prop p "fullurl") then Ok (prop p "fullurl")
    else
      let* title := toStr (prop p "title") in
      let* encoded := Str.encodeURIComponent title in
      Ok (JStr ("https://commons.wikimedia.org/wiki/" ++ encoded)) in
  Ok (JObj [ ("id", prop p "pageid");
             ("title", prop p "title");
             ("thumbnail", thumbnail);
             ("contentUrl", contentUrl);
             ("hostPage", hostPage);
             ("width", orElse (prop ii "width") JNull);
             ("height", orElse (prop ii "height") JNull);
             ("description", JStr (cleanDescription desc)) ]).

(** The value [searchWikimedia] resolves to. *)
Record SearchData : Type := mkData {
  data_query : string;
  data_results : list JsVal
}.

(** The part of [searchWikimedia] after the response arrived. *)
Definition readResponse (query : string) (res : UpstreamResponse)
  : Res SearchData :=
  if negb (ok res)
  then Throw (Error ("Wikimedia API error " ++ Number.toString (status res)))
  else
    let* json := json res in
    let* q := get json "query" in
    let pages := orElse (prop q "pages") (JObj []) in
    let* results := mapM normalize (values pages) in
    Ok (mkData query results).

(** A default parameter: the default stands in for an absent argument. *)
Definition defaultTo (n : Num) (argument : option Num) : Num :=
  match argument with
  | Some m => m
  | None => n
  end.

(** [searchWikimedia(query, page = 1, per_page = 24)]. *)
Definition searchWikimedia (fetch : Upstream) (query : string)
    (page per_page : option Num) : Eff SearchData :=
  let page := defaultTo (Int 1) page in
  let per_page := defaultTo (Int 24) per_page in
  let request := upstreamRequest query page per_page in
  ([Fetch request],
   let* res := fetch request in
   readResponse query res).

(** *** The [GET /api/search] handler *)

(** [req.query]: each parameter is [undefined], a string, or an array or
    object built by the query-string parser. *)
Record Query : Type := mkQuery {
  q : JsVal;
  safe : JsVal;
  page : JsVal;
  per_page : JsVal
}.

Inductive Body : Type :=
| SearchBody (query : string) (page per_page : Num) (count : Z)
             (results : list JsVal)
| ErrorBody (error : Message).

Record Response : Type := mkResponse {
  code : Z;
  body : Body
}.

(** [(req.query.q || "").trim()]: only a string has [trim]. *)
Definition readQ (q : JsVal) : Res string :=
  match orElse q (JStr "") with
  | JStr s => Ok (Str.trim s)
  | _ => Throw TypeError
  end.

(** [parseInt(v || fallback)]. *)
Definition readInt (v : JsVal) (fallback : string) : Res Num :=
  let* s := toStr (orElse v (JStr fallback)) in
  Ok (Number.parseInt s).

(** The callback of [data.results.filter]. *)
Definition keep (safe item : JsVal) : Res bool :=
  let* thumbnail := get item "thumbnail" in
  if negb (truthy thumbnail) && negb (truthy (prop item "contentUrl"))
  then Ok false
  else passesSafeFilter item safe.

Fixpoint filterM {A} (f : A -> Res bool) (l : list A) : Res (list A) :=
  match l with
  | [] => Ok []
  | x :: r =>
      let* b := f x in
      let* r' := filterM f r in
      Ok (if b then x :: r' else r')
  end.

(** The body of the [try] block. *)
Definition searchRoute (fetch : Upstream) (query : Query) : Eff Response :=
  match readQ (q query) with
  | Throw e => ([], Throw e)
  | Ok "" => ([], Ok (mkResponse 400 (ErrorBody (Text "Missing q parameter"))))
  | Ok q =>
      let safe := orElse (safe query) (JStr "Strict") in
      match
        (let* page := readInt (page query) "1" in
         let* per_page := readInt (per_page query) "24" in
         Ok (Number.max (Int 1) page,
             Number.min (Int 48) (Number.max (Int 8) per_page)))
      with
      | Throw e => ([], Throw e)
      | Ok (page, per_page) =>
          let '(events, outcome) :=
            searchWikimedia fetch q (Some page) (Some per_page) in
          (events,
           let* data := outcome in
           let* filtered := filterM (keep safe) (data_results data) in
           Ok (mkResponse 200
                 (SearchBody (data_query data) page per_page
                             (Z.of_nat (List.length filtered)) filtered)))
      end
  end.

(** [err.message || "Server error"]. *)
Definition errorText (err : Exn) : Message :=
  match message err with
  | Text "" => Text "Server error"
  | m => m
  end.

(** The handler: the [try] block and its [catch]. *)
Definition handler (fetch : Upstream) (query : Query)
  : list Event * Response :=
  match searchRoute fetch query with
  | (events, Ok response) => (events, response)
  | (events, Throw err) =>
      (events ++ [ConsoleError "search error" err],
       mkResponse 500 (ErrorBody (errorText err)))
  end.

(* ================================================================= *)
(** ** Vocabulary of the specification *)

(** [pat] occurs in [s] as a literal substring. *)
Definition Occurs (pat s : string) : Prop :=
  exists pre post, s = (pre ++ pat ++ post)%string.

(** Every character of [s] is white space. *)
Fixpoint Blank (s : string) : Prop :=
  match s with
  | EmptyString => True
  | String c r => Str.isWhiteSpace c = true /\ Blank r
  end.

(** [c] does not occur in [s]. *)
Fixpoint Lacks (c : ascii) (s : string) : Prop :=
  match s with
  | EmptyString => True
  | String d r => d <> c /\ Lacks c r
  end.

(** The text the filter inspects:
    [(item.title || "") + " " + (item.description || "")]. *)
Definition filterText (item : JsVal) : Res string :=
  let* title := toStr (orElse (prop item "title") (JStr "")) in
  let* description := toStr (orElse (prop item "description") (JStr "")) in
  Ok (title ++ " " ++ description)%string.

(** The value of a parameter of an upstream request. *)
Fixpoint param (k : string) (entries : list (string * string)) : option string :=
  match entries with
  | [] => None
  | (k', v) :: r => if (k =? k')%string then Some v else param k r
  end.

(** The upstream calls among the events of a request. *)
Definition upstreamCalls (events : list Event) : list UpstreamRequest :=
  flat_map (fun e => match e with Fetch r => [r] | _ => [] end) events.

(** The request the handler sends for a query text and the two parsed
    numbers. *)
Definition requestOf (text : string) (page per_page : Num) : UpstreamRequest :=
  upstreamRequest text (Number.max (Int 1) page)
                  (Number.min (Int 48) (Number.max (Int 8) per_page)).

(** A field is present when it is neither [undefined] nor [null]. *)
Definition present (v : JsVal) : bool :=
  match v with
  | JUndef | JNull => false
  | _ => true
  end.

(** The description as the specification words it: the
    "ImageDescription" value if present, else the extract if present,
    else the empty string, stripped and trimmed. *)
Definition claimed_description (p : JsVal) : JsVal :=
  let ii := firstImageInfo (prop p "imageinfo") in
  let value := prop (prop (prop ii "extmetadata") "ImageDescription") "value" in
  let chosen :=
    if present value then value
    else if present (prop p "extract") then prop p "extract"
    else JStr "" in
  match chosen with
  | JStr s => JStr (Str.trim (Str.stripTags s))
  | other => other
  end.

(** A dimension as the specification words it: copied from the first
    image-info when that element and the field are present, else
    [null]. *)
Definition claimed_dimension (field : string) (p : JsVal) : JsVal :=
  match prop p "imageinfo" with
  | JArr (first :: _) =>
      if present first && present (prop first field) then prop first field
      else JNull
  | _ => JNull
  end.

(** The one event of [searchWikimedia]: its upstream call. *)
Definition upstreamEvents (query : string) (page per_page : option Num)
  : list Event :=
  [Fetch (upstreamRequest query (defaultTo (Int 1) page)
                          (defaultTo (Int 24) per_page))].

(** The results follow the raw page mapping member by member. *)
Definition InRawOrder (ps : list (string * JsVal)) (results : list JsVal) : Prop :=
  Forall2 (fun member result => normalize (snd member) = Ok result) ps results.

(* ================================================================= *)
(** ** Sample upstreams, requests and payloads *)

(** An upstream that answers 200 with the given payload. *)
Definition answering (payload : JsVal) : Upstream :=
  fun _ => Ok (mkUpstream true (Int 200) (Ok payload)).

(** An upstream that answers with a non-success status. *)
Definition failing (status : Z) : Upstream :=
  fun _ => Ok (mkUpstream false (Int status) (Throw (Rejected "Unexpected token")%string)).

(** A request with only [q]. *)
Definition onlyQ (text : string) : Query :=
  mkQuery (JStr text) JUndef JUndef JUndef.

(** An audio file of Wikimedia Commons: its image-info has size 0 x 0. *)
Definition audioPage : JsVal :=
  JObj [ ("pageid", JNum (Int 5)); ("title", JStr "File:Purr.ogg");
         ("imageinfo",
          JArr [JObj [ ("url", JStr "https://upload.wikimedia.org/purr.ogg");
                       ("width", JNum (Int 0)); ("height", JNum (Int 0)) ]]) ]%string.

(** A file whose "ImageDescription" is present and empty, on a page that
    has an extract. *)
Definition undescribedPage : JsVal :=
  JObj [ ("pageid", JNum (Int 6)); ("title", JStr "File:Cat.jpg");
         ("imageinfo",
          JArr [JObj [ ("url", JStr "https://upload.wikimedia.org/cat.jpg");
                       ("extmetadata",
                        JObj [("ImageDescription", JObj [("value", JStr "")])]) ]]);
         ("extract", JStr "A <b>cat</b> ") ]%string.

(** A file whose "ImageDescription" value is not a string but an object
    with one text per language, on a page that has an extract. *)
Definition multilingualPage : JsVal :=
  JObj [ ("pageid", JNum (Int 8)); ("title", JStr "File:Chat.jpg");
         ("imageinfo",
          JArr [JObj [ ("url", JStr "https://upload.wikimedia.org/chat.jpg");
                       ("extmetadata",
                        JObj [("ImageDescription",
                               JObj [("value",
                                      JObj [("en", JStr "A cat");
                                            ("fr", JStr "Un chat")])])]) ]]);
         ("extract", JStr "Chat") ]%string.

(** Two file pages, listed by the upstream in the order 30, 4. *)
Definition rawPages : list (string * JsVal) :=
  [ ("30", JObj [ ("pageid", JNum (Int 30)); ("title", JStr "File:First.jpg");
                  ("imageinfo", JArr [JObj [("url", JStr "https://u/first.jpg")]]) ]);
    ("4", JObj [ ("pageid", JNum (Int 4)); ("title", JStr "File:Second.jpg");
                 ("imageinfo", JArr [JObj [("url", JStr "https://u/second.jpg")]]) ]) ]%string.

(** The payload that lists them. *)
Definition searchPayload : JsVal :=
  JObj [("query", JObj [("pages", JObj rawPages)])]%string.

(* ================================================================= *)
(** ** Start-up configuration and CORS *)

(** [s.split(sep)] for a separator of one character: the pieces between
    the separators, in order; the empty string gives one empty piece. *)
Fixpoint splitOn (sep : ascii) (s : string) : list string :=
  match s with
  | EmptyString => [EmptyString]
  | String c r =>
      if (c =? sep)%char then EmptyString :: splitOn sep r
      else
        match splitOn sep r with
        | piece :: pieces => String c piece :: pieces
        | [] => [String c EmptyString]
        end
  end.

(** [process.env.NAME || fallback]: a variable is absent or a string. *)
Definition envOr (variable : option string) (fallback : string) : string :=
  match variable with
  | Some s => if (s =? EmptyString)%string then fallback else s
  | None => fallback
  end.

(** Line 24: [(process.env.ALLOWED_ORIGINS || "").split(",")
    .map(s => s.trim()).filter(Boolean)]. *)
Definition allowedOriginsOf (variable : option string) : list string :=
  filter (fun s => negb (s =? EmptyString)%string)
         (map Str.trim (splitOn "," (envOr variable EmptyString))).

(** [allowedOrigins.includes(origin)]. *)
Definition includesOrigin (allowedOrigins : list string) (origin : string) : bool :=
  existsb (fun allowed => (allowed =? origin)%string) allowedOrigins.

(** Lines 26-31, the [origin] callback of the CORS options: [Ok true] is
    [cb(null, true)], a thrown error is [cb(new Error(...))].  The
    [Origin] header is absent or a string. *)
Definition corsOrigin (allowedOrigins : list string) (origin : option string)
  : Res bool :=
  match origin with
  | None => Ok true
  | Some o =>
      if (o =? EmptyString)%string then Ok true
      else if (List.length allowedOrigins =? 0)%nat then Ok true
      else if includesOrigin allowedOrigins o then Ok true
      else Throw (Error "Not allowed by CORS")
  end.

(** Line 38: [parseInt(process.env.RATE_LIMIT_MAX || "30")]. *)
Definition rateLimitMax (variable : option string) : Num :=
  Number.parseInt (envOr variable "30").

(** Line 149: [parseInt(process.env.PORT || "3000")]. *)
Definition PORT (variable : option string) : Num :=
  Number.parseInt (envOr variable "3000").

(* ================================================================= *)
(** ** More vocabulary *)

(** [l'] is [l] with some elements left out, the others in place. *)
Inductive Subseq {A : Type} : list A -> list A -> Prop :=
| Subseq_nil : Subseq [] []
| Subseq_keep x l' l : Subseq l' l -> Subseq (x :: l') (x :: l)
| Subseq_drop x l' l : Subseq l' l -> Subseq l' (x :: l).

(** A result has an image: a truthy thumbnail or content URL. *)
Definition hasImage (item : JsVal) : bool :=
  truthy (prop item "thumbnail") || truthy (prop item "contentUrl").

(** A value a result field may hold: [null] or something truthy. *)
Definition NullOrTruthy (v : JsVal) : Prop := v = JNull \/ truthy v = true.

(** [s] contains a tag: a [<], one or more characters other than [>],
    and a [>]. *)
Definition HasTag (s : string) : Prop :=
  exists pre x post,
    s = (pre ++ String "<" (x ++ String ">" post))%string
    /\ x <> EmptyString /\ Lacks ">" x.

(** Text in which every [<] is directly followed by [>] or is followed
    by no [>] at all. *)
Inductive TagFree : string -> Prop :=
| TagFree_empty : TagFree EmptyString
| TagFree_other c s : c <> "<"%char -> TagFree s -> TagFree (String c s)
| TagFree_pair s : TagFree s -> TagFree (String "<" (String ">" s))
| TagFree_open s : Lacks ">" s -> TagFree (String "<" s).

(** Every character of [s] satisfies [ok]. *)
Fixpoint AllChars (ok : ascii -> bool) (s : string) : Prop :=
  match s with
  | EmptyString => True
  | String c r => ok c = true /\ AllChars ok r
  end.

(** The characters of a percent-encoded text: unreserved characters,
    [%] and the hexadecimal digits. *)
Definition isUriSafe (c : ascii) : bool :=
  Str.isUnreserved c || (Str.code c =? 37).

(** The value of a decimal numeral read from the left, starting from
    [acc]. *)
Fixpoint decimalValue (acc : Z) (d : Decimal.uint) : Z :=
  match d with
  | Decimal.Nil => acc
  | Decimal.D0 r => decimalValue (acc * 10 + 0) r
  | Decimal.D1 r => decimalValue (acc * 10 + 1) r
  | Decimal.D2 r => decimalValue (acc * 10 + 2) r
  | Decimal.D3 r => decimalValue (acc * 10 + 3) r
  | Decimal.D4 r => decimalValue (acc * 10 + 4) r
  | Decimal.D5 r => decimalValue (acc * 10 + 5) r
  | Decimal.D6 r => decimalValue (acc * 10 + 6) r
  | Decimal.D7 r => decimalValue (acc * 10 + 7) r
  | Decimal.D8 r => decimalValue (acc * 10 + 8) r
  | Decimal.D9 r => decimalValue (acc * 10 + 9) r
  end.

(** A numeral that starts with one of the digits 1 to 9. *)
Definition leading (d : Decimal.uint) : bool :=
  match d with
  | Decimal.Nil | Decimal.D0 _ => false
  | _ => true
  end.

(** An origin as it is written in a list of origins: not empty, without
    a comma, without white space around it. *)
Definition PlainOrigin (o : string) : Prop :=
  o <> EmptyString /\ Lacks "," o /\ Str.trim o = o.

(* ================================================================= *)
(** ** Properties of the string built-ins *)

Section StringFacts.

Local Open Scope string_scope.

Lemma append_empty_r (s : string) : s ++ "" = s.
Proof. induction s as [|c s IH]; simpl; [reflexivity | now rewrite IH]. Qed.

Lemma append_assoc (a b c : string) : (a ++ b) ++ c = a ++ (b ++ c).
Proof. induction a as [|x a IH]; simpl; [reflexivity | now rewrite IH]. Qed.

Lemma prefix_split (p s : string) :
  prefix p s = true <-> exists post, s = p ++ post.
Proof.
  revert s; induction p as [|a p IH]; intros s.
  - destruct s; simpl; split; eauto.
  - destruct s as [|b s]; simpl.
    + split; [discriminate | intros [post H]; discriminate].
    + destruct (ascii_dec a b) as [->|Hab].
      * rewrite IH. split; intros [post H]; exists post.
        -- now rewrite H.
        -- now inversion H.
      * split; [discriminate | intros [post H]; congruence].
Qed.

Lemma includes_here (s pat : string) :
  prefix pat s = true -> Str.includes s pat = true.
Proof. intros H. destruct s; simpl in *; now rewrite H. Qed.

Lemma includes_later (c : ascii) (s pat : string) :
  Str.includes s pat = true -> Str.includes (String c s) pat = true.
Proof.
  intros H. cbn [Str.includes].
  now destruct (prefix pat (String c s)).
Qed.

Lemma includes_occurs (s pat : string) :
  Str.includes s pat = true <-> Occurs pat s.
Proof.
  unfold Occurs. split.
  - induction s as [|c s IH]; cbn [Str.includes].
    + destruct (prefix pat "") eqn:E; [|discriminate].
      intros _. apply prefix_split in E as [post E]. now exists "", post.
    + destruct (prefix pat (String c s)) eqn:E.
      * intros _. apply prefix_split in E as [post E]. now exists "", post.
      * intros H. destruct (IH H) as (pre & post & ->).
        now exists (String c pre), post.
  - intros (pre & post & ->). induction pre as [|c pre IH].
    + apply includes_here, prefix_split. now exists post.
    + apply includes_later, IH.
Qed.

Lemma toLowerCase_app (a b : string) :
  Str.toLowerCase (a ++ b) = Str.toLowerCase a ++ Str.toLowerCase b.
Proof. induction a as [|c a IH]; simpl; [reflexivity | now rewrite IH]. Qed.

Lemma trimEnd_empty (s : string) : Str.trimEnd s = "" <-> Blank s.
Proof.
  induction s as [|c s IH]; simpl; [tauto|].
  destruct (Str.trimEnd s) eqn:E.
  - destruct (Str.isWhiteSpace c); split; try discriminate; try tauto.
    intros [H _]; discriminate.
  - split; [discriminate|]. intros [_ H]. apply IH in H. discriminate.
Qed.

Lemma trimStart_blank (s : string) : Blank s -> Str.trimStart s = "".
Proof.
  induction s as [|c s IH]; simpl; [reflexivity|].
  intros [-> H]. now apply IH.
Qed.

Lemma trimStart_suffix (s : string) :
  exists pre, Blank pre /\ s = pre ++ Str.trimStart s.
Proof.
  induction s as [|c s (pre & Hpre & IH)]; simpl.
  - now exists "".
  - destruct (Str.isWhiteSpace c) eqn:E.
    + exists (String c pre). simpl. split; [tauto | now rewrite <- IH].
    + now exists "".
Qed.

Lemma Blank_app (a b : string) : Blank (a ++ b) <-> Blank a /\ Blank b.
Proof. induction a as [|c a IH]; simpl; tauto. Qed.

(** [trim] gives the empty string exactly on blank strings. *)
Lemma trim_empty (s : string) : Str.trim s = "" <-> Blank s.
Proof.
  unfold Str.trim. rewrite trimEnd_empty.
  destruct (trimStart_suffix s) as (pre & Hpre & E). split.
  - intros H. rewrite E. apply Blank_app. tauto.
  - intros H. now rewrite (trimStart_blank s H).
Qed.

End StringFacts.

(* ================================================================= *)
(** ** The safety filter *)

Section SafeFilter.

Lemma scanBlacklist_false (lower : string) (terms : list string) :
  scanBlacklist lower terms = false <->
  exists bad, In bad terms /\ Occurs bad lower.
Proof.
  induction terms as [|t terms IH]; simpl.
  - split; [discriminate | intros (bad & [] & _)].
  - destruct (Str.includes lower t) eqn:E.
    + split; [|reflexivity]. intros _. exists t. split; [now left|].
      now apply includes_occurs.
    + rewrite IH. split; intros (bad & Hin & Hocc).
      * exists bad. tauto.
      * destruct Hin as [->|Hin]; [|now exists bad].
        apply includes_occurs in Hocc. congruence.
Qed.

Lemma strictEqStr_true (v : JsVal) (s : string) :
  strictEqStr v s = true <-> v = JStr s.
Proof.
  destruct v; simpl; try (split; [discriminate | intros H; discriminate]).
  rewrite String.eqb_eq. split; [now intros -> | now intros [= ->]].
Qed.

Lemma strictEqStr_false (v : JsVal) (s : string) :
  strictEqStr v s = false <-> v <> JStr s.
Proof.
  rewrite <- strictEqStr_true. destruct (strictEqStr v s); split;
    congruence.
Qed.

Lemma passesSafeFilter_strict (item : JsVal) (mode : JsVal) :
  truthy item = true ->
  effectiveMode mode = JStr "Strict" ->
  passesSafeFilter item mode =
  let* text := filterText item in
  Ok (scanBlacklist (Str.toLowerCase text) BLACKLIST).
Proof.
  intros Hitem Hmode. unfold passesSafeFilter, filterText. cbv zeta.
  rewrite Hitem, Hmode. cbn [negb strictEqStr].
  change (("Strict" =? "Strict")%string) with true. cbn [negb].
  destruct (toStr (orElse (prop item "title") (JStr ""))); [|reflexivity].
  cbn [bind].
  now destruct (toStr (orElse (prop item "description") (JStr ""))).
Qed.

Lemma passesSafeFilter_open (item : JsVal) (mode : JsVal) :
  truthy item = true ->
  effectiveMode mode <> JStr "Strict" ->
  passesSafeFilter item mode = Ok true.
Proof.
  intros Hitem Hmode. unfold passesSafeFilter. cbv zeta.
  rewrite Hitem, (proj2 (strictEqStr_false _ _) Hmode). reflexivity.
Qed.

(** A record titled "Sexton House" is rejected in Strict mode, whatever
    its description. *)
Lemma sexton_rejected (fields : list (string * JsVal)) (description : string) :
  prop (JObj fields) "title" = JStr "Sexton House" ->
  prop (JObj fields) "description" = JStr description ->
  passesSafeFilter (JObj fields) (JStr "Strict") = Ok false.
Proof.
  intros Ht Hd.
  rewrite passesSafeFilter_strict by reflexivity.
  unfold filterText. rewrite Ht, Hd.
  change (orElse (JStr "Sexton House") (JStr "")) with (JStr "Sexton House").
  assert (E : toStr (orElse (JStr description) (JStr "")) = Ok description).
  { unfold orElse. simpl. now destruct description. }
  rewrite E. cbn [bind toStr]. f_equal.
  apply scanBlacklist_false. exists "sex"%string. split.
  - simpl. tauto.
  - exists "", ("ton house " ++ Str.toLowerCase description)%string.
    change ("Sexton House" ++ " " ++ description)%string
      with ("Sexton House " ++ description)%string.
    now rewrite toLowerCase_app.
Qed.

(** C1.  For a normalized record (an object) and every mode: in Strict
    mode (given, or taken by default) the filter rejects the record
    exactly when the lower-cased text "title, space, description" (a
    missing or empty field counting as the empty string) contains a
    blacklisted term as a literal substring; in every other mode,
    recognised or not, the record passes.  A record titled "Sexton House"
    is rejected in Strict mode and passes in mode Off. *)
Theorem passesSafeFilter_spec (fields : list (string * JsVal)) (mode : JsVal) :
  let item := JObj fields in
  (effectiveMode mode = JStr "Strict" ->
   (passesSafeFilter item mode = Ok false <->
    exists title description,
      toStr (orElse (prop item "title") (JStr "")) = Ok title /\
      toStr (orElse (prop item "description") (JStr "")) = Ok description /\
      exists bad, In bad BLACKLIST /\
        Occurs bad (Str.toLowerCase (title ++ " " ++ description)%string)))
  /\ (effectiveMode mode <> JStr "Strict" ->
      passesSafeFilter item mode = Ok true)
  /\ (forall description,
        prop item "title" = JStr "Sexton House" ->
        prop item "description" = JStr description ->
        passesSafeFilter item (JStr "Strict") = Ok false /\
        passesSafeFilter item (JStr "Off") = Ok true).
Proof.
  intros item. split; [|split].
  - intros Hmode. rewrite passesSafeFilter_strict by easy.
    unfold filterText.
    destruct (toStr (orElse (prop item "title") (JStr ""))) as [t|e].
    2:{ cbn [bind]. split; [discriminate|].
        intros (t & d & H & _). discriminate. }
    destruct (toStr (orElse (prop item "description") (JStr ""))) as [d|e].
    2:{ cbn [bind]. split; [discriminate|].
        intros (t' & d' & _ & H & _). discriminate. }
    cbn [bind]. split.
    + intros [= H]. exists t, d. repeat split.
      now apply scanBlacklist_false.
    + intros (t' & d' & [= <-] & [= <-] & H). f_equal.
      now apply scanBlacklist_false.
  - intros Hmode. now apply passesSafeFilter_open.
  - intros description Ht Hd. split.
    + now apply sexton_rejected with description.
    + now apply passesSafeFilter_open.
Qed.

(** The Sexton House record of the specification, in both modes. *)
Lemma passesSafeFilter_spec_witness :
  let sexton := [("id", JNum (Int 7)); ("title", JStr "Sexton House");
                 ("description", JStr "")] in
  passesSafeFilter (JObj sexton) (JStr "Strict") = Ok false /\
  passesSafeFilter (JObj sexton) (JStr "Off") = Ok true.
Proof.
  intros sexton.
  exact (proj2 (proj2 (passesSafeFilter_spec sexton JUndef))
               EmptyString eq_refl eq_refl).
Defined.

(** C10.  The verdict depends only on the title, the description and
    the mode: two records (objects) with the same title and the same
    description get the same verdict in every mode, whatever their other
    fields. *)
Theorem passesSafeFilter_title_description_only
    (fields1 fields2 : list (string * JsVal)) (mode : JsVal) :
  prop (JObj fields1) "title" = prop (JObj fields2) "title" ->
  prop (JObj fields1) "description" = prop (JObj fields2) "description" ->
  passesSafeFilter (JObj fields1) mode = passesSafeFilter (JObj fields2) mode.
Proof.
  intros Ht Hd. unfold passesSafeFilter.
  cbn [truthy negb]. now rewrite Ht, Hd.
Qed.

Lemma passesSafeFilter_title_description_only_witness :
  passesSafeFilter
    (JObj [("id", JNum (Int 1)); ("title", JStr "Nude study");
           ("thumbnail", JStr "https://a/t.jpg"); ("contentUrl", JNull);
           ("hostPage", JStr "https://a"); ("width", JNum (Int 640));
           ("height", JNull); ("description", JStr "oil")])
    (JStr "Strict")
  = passesSafeFilter
    (JObj [("id", JNum (Int 2)); ("title", JStr "Nude study");
           ("thumbnail", JNull); ("contentUrl", JStr "https://b/c.png");
           ("hostPage", JStr "https://b"); ("width", JNull);
           ("height", JNum (Int 480)); ("description", JStr "oil")])
    (JStr "Strict").
Proof.
  apply passesSafeFilter_title_description_only; reflexivity.
Defined.

End SafeFilter.

(* ================================================================= *)
(** ** The handler *)

Section Handler.

Variable fetch : Upstream.

Lemma readQ_blank (v : JsVal) :
  v = JUndef \/ (exists s, v = JStr s /\ Blank s) -> readQ v = Ok ""%string.
Proof.
  intros [->|(s & -> & H)]; [reflexivity|].
  unfold readQ, orElse. simpl.
  destruct (s =? "")%string eqn:E; simpl.
  - reflexivity.
  - f_equal. now apply trim_empty.
Qed.

(** C5.  When [q] is absent, or is a string that is empty after trimming
    white space, the response is 400 with body
    [{"error":"Missing q parameter"}], nothing is logged and no upstream
    call is made. *)
Theorem missing_q_is_400 (query : Query) :
  q query = JUndef \/ (exists s, q query = JStr s /\ Blank s) ->
  handler fetch query
  = ([], mkResponse 400 (ErrorBody (Text "Missing q parameter")))
  /\ upstreamCalls (fst (handler fetch query)) = [].
Proof.
  intros H. apply readQ_blank in H.
  assert (E : handler fetch query
              = ([], mkResponse 400 (ErrorBody (Text "Missing q parameter")))).
  { unfold handler, searchRoute. now rewrite H. }
  now rewrite E.
Qed.

(** The clamp of line 120 on a number. *)
Lemma clamp_in_range (n : Z) :
  exists m, Number.min (Int 48) (Number.max (Int 8) (Int n)) = Int m
            /\ 8 <= m <= 48.
Proof. simpl. eexists; split; [reflexivity | lia]. Qed.

Lemma clamp_nan : Number.min (Int 48) (Number.max (Int 8) NaN) = NaN.
Proof. reflexivity. Qed.

(** An integer up to 2^53 is a double. *)
Lemma fromInteger_safe (z : Z) :
  Z.abs z <= Number.maxSafe -> Number.fromInteger z = Int z.
Proof.
  intros H. unfold Number.fromInteger. apply Z.leb_le in H. now rewrite H.
Qed.

(** [page >= 1] makes the product non-negative, so [Math.max(0, _)]
    leaves it unchanged; up to 2^53 the difference and the product are
    exact. *)
Lemma sroffset_exact (page per_page : Z) :
  1 <= page -> 0 <= per_page ->
  page - 1 <= Number.maxSafe ->
  (page - 1) * per_page <= Number.maxSafe ->
  sroffset (Int page) (Int per_page) = Int ((page - 1) * per_page).
Proof.
  intros Hp Hpp Hs Hm. unfold sroffset, Number.sub, Number.mul.
  rewrite fromInteger_safe by lia. rewrite fromInteger_safe by nia.
  cbn [Number.max]. f_equal. nia.
Qed.

(** Whatever the page, the offset is [NaN], not negative, or the
    positive infinity. *)
Lemma sroffset_not_negative (page per_page : Num) :
  match sroffset page per_page with
  | NaN => True
  | Int z => 0 <= z
  | Inf negative => negative = false
  end.
Proof.
  unfold sroffset.
  destruct (Number.mul (Number.sub page (Int 1)) per_page) as [|z|[]];
    cbn [Number.max]; trivial; lia.
Qed.

(** C6, as the code has it.  For a page number at least 1 and a page
    size in [8,48] whose product [(page - 1) * per_page] is at most 2^53,
    the range in which the arithmetic of the code is exact, the offset
    is [(page - 1) * per_page], it is not negative, and it is the
    [gsroffset] of the one upstream request; page 2 of size 10 starts at
    offset 10 and page 1 at offset 0. *)
Theorem upstream_offset (query : string) (page per_page : Z) :
  1 <= page ->
  8 <= per_page <= 48 ->
  (page - 1) * per_page <= Number.maxSafe ->
  sroffset (Int page) (Int per_page) = Int ((page - 1) * per_page)
  /\ 0 <= (page - 1) * per_page
  /\ (exists request,
        fst (searchWikimedia fetch query (Some (Int page)) (Some (Int per_page)))
        = [Fetch request]
        /\ param "gsroffset" (params request)
           = Some (Number.toString (Int ((page - 1) * per_page)))
        /\ param "gsrlimit" (params request)
           = Some (Number.toString (Int per_page)))
  /\ sroffset (Int 2) (Int 10) = Int 10
  /\ sroffset (Int 1) (Int per_page) = Int 0.
Proof.
  intros Hp Hpp Hm.
  assert (E := sroffset_exact page per_page Hp ltac:(lia) ltac:(nia) Hm).
  split; [exact E|]. split; [nia|]. split; [|split].
  - exists (upstreamRequest query (Int page) (Int per_page)).
    split; [reflexivity|]. cbn [params upstreamRequest].
    unfold upstreamParams. rewrite E. split; reflexivity.
  - reflexivity.
  - rewrite sroffset_exact by (unfold Number.maxSafe; lia). f_equal.
Qed.

(** The handler up to the upstream call, for a request that passes the
    check of [q] and whose numbers convert. *)
Lemma searchRoute_calls (query : Query) (text : string) (pg pp : Num) :
  readQ (q query) = Ok text ->
  text <> ""%string ->
  readInt (page query) "1" = Ok pg ->
  readInt (per_page query) "24" = Ok pp ->
  searchRoute fetch query
  = ([Fetch (requestOf text pg pp)],
     let* res := fetch (requestOf text pg pp) in
     let* data := readResponse text res in
     let* filtered :=
       filterM (keep (orElse (safe query) (JStr "Strict"))) (data_results data) in
     Ok (mkResponse 200
           (SearchBody (data_query data) (Number.max (Int 1) pg)
              (Number.min (Int 48) (Number.max (Int 8) pp))
              (Z.of_nat (List.length filtered)) filtered))).
Proof.
  intros Hq Hne Hpg Hpp. unfold searchRoute.
  rewrite Hq, Hpg, Hpp. destruct text as [|c text]; [congruence|].
  cbn [bind]. unfold searchWikimedia, requestOf. f_equal.
  destruct (fetch _); reflexivity.
Qed.

(** C7, as the code has it.  When the upstream answers with a
    non-success status, the request fails with a 500 response; the error
    is the [Error] whose message is "Wikimedia API error " followed by
    the upstream status; that error is logged, and the same message, with
    the status in it, is the [error] of the response body. *)
Theorem upstream_failure_is_500 (query : Query) (text : string) (pg pp : Num)
    (res : UpstreamResponse) :
  readQ (q query) = Ok text ->
  text <> ""%string ->
  readInt (page query) "1" = Ok pg ->
  readInt (per_page query) "24" = Ok pp ->
  fetch (requestOf text pg pp) = Ok res ->
  ok res = false ->
  let failure := ("Wikimedia API error " ++ Number.toString (status res))%string in
  handler fetch query
  = ([Fetch (requestOf text pg pp); ConsoleError "search error" (Error failure)],
     mkResponse 500 (ErrorBody (Text failure))).
Proof.
  intros Hq Hne Hpg Hpp Hres Hok failure. unfold handler.
  rewrite (searchRoute_calls query text pg pp Hq Hne Hpg Hpp), Hres.
  cbn [bind]. unfold readResponse. rewrite Hok. reflexivity.
Qed.

Lemma filterM_kept {A} (f : A -> Res bool) (l kept : list A) :
  filterM f l = Ok kept -> Forall (fun x => f x = Ok true) kept.
Proof.
  revert kept; induction l as [|x l IH]; intros kept; simpl.
  - intros [= <-]. constructor.
  - destruct (f x) as [b|] eqn:E; [|discriminate]. cbn [bind].
    destruct (filterM f l) as [r|]; [|discriminate]. cbn [bind].
    intros [= <-]. specialize (IH r eq_refl).
    destruct b; [constructor|]; assumption.
Qed.





End Handler.

Lemma upstream_offset_witness :
  sroffset (Int 3) (Int 24) = Int 48
  /\ param "gsroffset" (params (upstreamRequest "cats" (Int 3) (Int 24)))
     = Some "48"%string.
Proof.
  destruct (upstream_offset (answering (JObj [])) "cats" 3 24
              ltac:(lia) ltac:(lia) ltac:(unfold Number.maxSafe; lia))
    as (E & _ & (request & [= <-] & G & _) & _).
  split; [exact E | exact G].
Defined.

(** Beyond 2^53 the product is rounded: page 1125899906842626 of size 9
    is within the range of the claim, [(page - 1) * per_page] is the odd
    number 10133099161583625, which is no double, and the request made
    for [?q=cat&page=1125899906842626&per_page=9] carries the even
    neighbour 10133099161583624 as its offset. *)
Lemma upstream_offset_is_rounded :
  let page := 1125899906842626 in
  let per_page := 9 in
  let query := mkQuery (JStr "cat") JUndef
                 (JStr "1125899906842626") (JStr "9") in
  (1 <= page /\ 8 <= per_page <= 48)
  /\ (page - 1) * per_page = 10133099161583625
  /\ sroffset (Int page) (Int per_page) = Int 10133099161583624
  /\ sroffset (Int page) (Int per_page) <> Int ((page - 1) * per_page)
  /\ upstreamCalls (fst (handler (answering (JObj [])) query))
     = [upstreamRequest "cat" (Int page) (Int per_page)]
  /\ param "gsroffset" (params (upstreamRequest "cat" (Int page) (Int per_page)))
     = Some "10133099161583624"%string.
Proof.
  cbv zeta. split; [lia|]. split; [reflexivity|]. split; [reflexivity|].
  split; [discriminate|]. split; reflexivity.
Qed.

Lemma missing_q_is_400_witness :
  handler (answering (JObj [])) (onlyQ "   ")
  = ([], mkResponse 400 (ErrorBody (Text "Missing q parameter"))).
Proof.
  apply (missing_q_is_400 (answering (JObj [])) (onlyQ "   ")).
  right. exists "   "%string. simpl. auto.
Defined.

Lemma upstream_failure_is_500_witness :
  handler (failing 503) (onlyQ "cat")
  = ([Fetch (upstreamRequest "cat" (Int 1) (Int 24));
      ConsoleError "search error" (Error "Wikimedia API error 503")],
     mkResponse 500 (ErrorBody (Text "Wikimedia API error 503"))).
Proof.
  apply (upstream_failure_is_500 (failing 503) (onlyQ "cat") "cat"%string
           (Int 1) (Int 24) (mkUpstream false (Int 503) (Throw (Rejected "Unexpected token"))));
    try reflexivity.
  discriminate.
Defined.

(** The caller does not get a generic message: the body carries the
    upstream status, and differs from one status to another. *)
Lemma upstream_status_reaches_caller :
  body (snd (handler (failing 503) (onlyQ "cat")))
  = ErrorBody (Text "Wikimedia API error 503")
  /\ body (snd (handler (failing 404) (onlyQ "cat")))
     = ErrorBody (Text "Wikimedia API error 404")
  /\ Str.includes "Wikimedia API error 503" (Number.toString (Int 503)) = true
  /\ body (snd (handler (failing 503) (onlyQ "cat")))
     <> ErrorBody (Text "Server error").
Proof. repeat split. discriminate. Qed.


(** C3 at a page size that is not a number.  [parseInt("abc")] is
    [NaN], which both [Math.max] and [Math.min] return unchanged: the
    upstream is asked for [gsrlimit=NaN] and the 200 response carries
    [per_page: NaN], outside [8,48]. *)
Theorem per_page_not_a_number :
  let query := mkQuery (JStr "cat") JUndef JUndef (JStr "abc") in
  handler (answering (JObj [])) query
  = ([Fetch (upstreamRequest "cat" (Int 1) NaN)],
     mkResponse 200 (SearchBody "cat" (Int 1) NaN 0 []))
  /\ param "gsrlimit" (params (upstreamRequest "cat" (Int 1) NaN)) = Some "NaN"%string.
Proof. split; reflexivity. Qed.

(** The [per_page] of a 200 response is the clamp of line 120 applied to
    what [parseInt] returned. *)
Lemma per_page_of_response (fetch : Upstream) (query : Query)
    events c qy pg pp count results (n : Num) :
  handler fetch query = (events, mkResponse c (SearchBody qy pg pp count results)) ->
  readInt (per_page query) "24" = Ok n ->
  pp = Number.min (Int 48) (Number.max (Int 8) n).
Proof.
  unfold handler, searchRoute. intros H Hn. rewrite Hn in H.
  destruct (readQ (q query)) as [text|]; [|discriminate].
  destruct text as [|ch text]; [discriminate|].
  destruct (readInt (page query) "1") as [pg'|]; [|discriminate].
  cbn [bind] in H. unfold searchWikimedia in H.
  destruct (fetch _) as [res|]; [|discriminate]. cbn [bind] in H.
  destruct (readResponse _ res) as [data|]; [|discriminate]. cbn [bind] in H.
  destruct (filterM _ (data_results data)) as [kept|]; [|discriminate].
  cbn [bind] in H. now injection H as _ _ _ _ <- _ _.
Qed.

(** The clamp does hold whenever [parseInt] finds a number. *)
Lemma per_page_clamped (fetch : Upstream) (query : Query)
    events c qy pg pp count results (n : Z) :
  handler fetch query = (events, mkResponse c (SearchBody qy pg pp count results)) ->
  readInt (per_page query) "24" = Ok (Int n) ->
  exists m, pp = Int m /\ 8 <= m <= 48.
Proof.
  intros H Hn. rewrite (per_page_of_response _ _ _ _ _ _ _ _ _ _ H Hn).
  apply clamp_in_range.
Qed.

(** It fails whenever [parseInt] finds none. *)
Lemma per_page_unclamped (fetch : Upstream) (query : Query)
    events c qy pg pp count results :
  handler fetch query = (events, mkResponse c (SearchBody qy pg pp count results)) ->
  readInt (per_page query) "24" = Ok NaN ->
  pp = NaN.
Proof.
  intros H Hn. now rewrite (per_page_of_response _ _ _ _ _ _ _ _ _ _ H Hn).
Qed.

Example per_page_1000 :
  body (snd (handler (answering (JObj []))
               (mkQuery (JStr "cat") JUndef JUndef (JStr "1000"))))
  = SearchBody "cat" (Int 1) (Int 48) 0 [].
Proof. reflexivity. Qed.

Example per_page_0 :
  body (snd (handler (answering (JObj []))
               (mkQuery (JStr "cat") JUndef JUndef (JStr "0"))))
  = SearchBody "cat" (Int 1) (Int 8) 0 [].
Proof. reflexivity. Qed.

Example page_2_of_10 :
  fst (handler (answering (JObj []))
         (mkQuery (JStr "cat") JUndef (JStr "2") (JStr "10")))
  = [Fetch (upstreamRequest "cat" (Int 2) (Int 10))]
  /\ param "gsroffset" (params (upstreamRequest "cat" (Int 2) (Int 10)))
     = Some "10"%string.
Proof. split; reflexivity. Qed.

Example per_page_absent :
  body (snd (handler (answering (JObj [])) (onlyQ "cat")))
  = SearchBody "cat" (Int 1) (Int 24) 0 [].
Proof. reflexivity. Qed.

(* ================================================================= *)
(** ** The normalizer *)

Section Normalizer.

Local Open Scope string_scope.

(** The equations of the leftmost, global replacement of [<[^>]+>]. *)

Lemma stripFrom_close (h x r : string) :
  Lacks ">" x -> h ++ x <> "" ->
  Str.stripFrom (Some h) (x ++ String ">" r) = Str.stripFrom None r.
Proof.
  revert h; induction x as [|c x IH]; intros h Hx Hne.
  - rewrite append_empty_r in Hne. simpl. destruct h; [congruence | reflexivity].
  - destruct Hx as [Hc Hx]. apply Ascii.eqb_neq in Hc. simpl. rewrite Hc.
    apply IH; [assumption|]. destruct h; discriminate.
Qed.

Lemma stripFrom_open (h r : string) :
  Lacks ">" r -> Str.stripFrom (Some h) r = String "<" (h ++ r).
Proof.
  revert h; induction r as [|c r IH]; intros h Hr; simpl.
  - now rewrite append_empty_r.
  - destruct Hr as [Hc Hr]. apply Ascii.eqb_neq in Hc. rewrite Hc.
    rewrite IH by assumption. now rewrite append_assoc.
Qed.

(** A character other than [<] is kept. *)
Lemma stripTags_other (c : ascii) (r : string) :
  c <> "<"%char -> Str.stripTags (String c r) = String c (Str.stripTags r).
Proof.
  intros H. apply Ascii.eqb_neq in H. unfold Str.stripTags. simpl.
  now rewrite H.
Qed.

(** A [<], one or more characters other than [>], and a [>] are
    removed. *)
Lemma stripTags_span (x r : string) :
  x <> "" -> Lacks ">" x ->
  Str.stripTags (String "<" (x ++ String ">" r)) = Str.stripTags r.
Proof.
  intros Hne Hx. unfold Str.stripTags. cbn [Str.stripFrom].
  change (("<" =? "<")%char) with true. cbv iota.
  now apply stripFrom_close.
Qed.

(** The text [<>] is kept. *)
Lemma stripTags_empty_pair (r : string) :
  Str.stripTags (String "<" (String ">" r)) = String "<" (String ">" (Str.stripTags r)).
Proof. reflexivity. Qed.

(** A [<] that no [>] follows is kept, with the rest of the text. *)
Lemma stripTags_unclosed (r : string) :
  Lacks ">" r -> Str.stripTags (String "<" r) = String "<" r.
Proof.
  intros H. unfold Str.stripTags. cbn [Str.stripFrom].
  change (("<" =? "<")%char) with true. cbv iota.
  now rewrite stripFrom_open.
Qed.

Lemma stripTags_plain (s : string) : Lacks "<" s -> Str.stripTags s = s.
Proof.
  induction s as [|c s IH]; [reflexivity|]. intros [Hc Hs].
  rewrite stripTags_other by assumption. now rewrite IH.
Qed.

(** [trim] removes a blank prefix and a blank suffix, and what is left
    neither starts nor ends with white space. *)
Lemma trimEnd_split (s : string) :
  exists post, Blank post /\ s = Str.trimEnd s ++ post.
Proof.
  induction s as [|c s (post & Hpost & IH)]; simpl.
  - now exists "".
  - destruct (Str.trimEnd s) eqn:E.
    + destruct (Str.isWhiteSpace c) eqn:W.
      * exists (String c post). simpl in IH. subst s. simpl. tauto.
      * exists post. simpl in *. now subst s.
    + exists post. split; [assumption|]. simpl. now rewrite IH at 1.
Qed.

Lemma trim_split (s : string) :
  exists pre post, Blank pre /\ Blank post /\ s = pre ++ Str.trim s ++ post.
Proof.
  destruct (trimStart_suffix s) as (pre & Hpre & E).
  destruct (trimEnd_split (Str.trimStart s)) as (post & Hpost & F).
  exists pre, post. unfold Str.trim. now rewrite <- F.
Qed.

Lemma trimStart_head (s : string) (c : ascii) (r : string) :
  Str.trimStart s = String c r -> Str.isWhiteSpace c = false.
Proof.
  induction s as [|d s IH]; simpl; [discriminate|].
  destruct (Str.isWhiteSpace d) eqn:W; [assumption|].
  now intros [= <- _].
Qed.

Lemma trimEnd_head (s : string) (c : ascii) (r : string) :
  Str.trimEnd s = String c r -> exists r', s = String c r'.
Proof.
  destruct s as [|d s]; simpl; [discriminate|].
  destruct (Str.trimEnd s).
  - destruct (Str.isWhiteSpace d); [discriminate|]. intros [= <- _]. eauto.
  - intros [= <- _]. eauto.
Qed.

Lemma trim_head (s : string) (c : ascii) (r : string) :
  Str.trim s = String c r -> Str.isWhiteSpace c = false.
Proof.
  unfold Str.trim. intros H. apply trimEnd_head in H as [r' H].
  now apply trimStart_head in H.
Qed.

Lemma trimEnd_last (s r : string) (c : ascii) :
  Str.trimEnd s = r ++ String c "" -> Str.isWhiteSpace c = false.
Proof.
  revert r; induction s as [|d s IH]; intros r; simpl.
  - destruct r; discriminate.
  - destruct (Str.trimEnd s) as [|e t] eqn:E.
    + destruct (Str.isWhiteSpace d) eqn:W.
      * destruct r; discriminate.
      * destruct r as [|x r]; simpl; [now intros [= <-]|].
        destruct r; discriminate.
    + destruct r as [|x r]; simpl; [discriminate|].
      intros [= _ H]. now apply (IH r).
Qed.

Lemma trim_last (s r : string) (c : ascii) :
  Str.trim s = r ++ String c "" -> Str.isWhiteSpace c = false.
Proof. apply trimEnd_last. Qed.

(** The record a successful [normalize] returns. *)
Lemma normalize_fields (p r : JsVal) :
  normalize p = Ok r ->
  let ii := firstImageInfo (prop p "imageinfo") in
  let value := prop (prop (prop ii "extmetadata") "ImageDescription") "value" in
  exists thumbnail hostPage,
    r = JObj [ ("id", prop p "pageid");
               ("title", prop p "title");
               ("thumbnail", thumbnail);
               ("contentUrl", orElse (prop ii "url") JNull);
               ("hostPage", hostPage);
               ("width", orElse (prop ii "width") JNull);
               ("height", orElse (prop ii "height") JNull);
               ("description",
                JStr (cleanDescription
                        (orElse (orElse value (prop p "extract")) (JStr "")))) ]
    /\ (truthy thumbnail = true \/ thumbnail = JNull).
Proof.
  unfold normalize, get. intros H.
  assert (E : exists w, (match p with JUndef | JNull => Throw TypeError
                         | _ => Ok (prop p "imageinfo") end) = Ok w
                        /\ w = prop p "imageinfo").
  { destruct p; try discriminate; eauto. }
  destruct E as (w & E & ->). rewrite E in H. cbn [bind] in H.
  match type of H with
  | context [("thumbnail", ?t)] => exists t
  end.
  destruct (truthy (prop p "fullurl")).
  - cbn [bind] in H. injection H as <-. eexists. split; [reflexivity|].
    unfold orElse.
    repeat match goal with
           | |- context [if truthy ?v then _ else _] =>
               destruct (truthy v) eqn:?
           end; auto.
  - destruct (toStr (prop p "title")) as [title|]; [|discriminate].
    cbn [bind] in H.
    destruct (Str.encodeURIComponent title); [|discriminate]. cbn [bind] in H.
    injection H as <-. eexists. split; [reflexivity|].
    unfold orElse.
    repeat match goal with
           | |- context [if truthy ?v then _ else _] =>
               destruct (truthy v) eqn:?
           end; auto.
Qed.

Lemma orElse_chain (a b c : JsVal) :
  orElse (orElse a b) c
  = if truthy a then a else if truthy b then b else c.
Proof.
  unfold orElse. destruct (truthy a) eqn:A; [now rewrite A|reflexivity].
Qed.

(** C8, as the code has it.  The description comes from the first
    image-info's "ImageDescription" value when that value is truthy,
    else from the page extract when that is truthy, else from the empty
    string; when the chosen value is a string, the description is that
    string with every match of [<[^>]+>] removed and then trimmed, and it
    is the empty string when the chosen value is not a string. *)
Theorem description_of_result (p r : JsVal) :
  normalize p = Ok r ->
  let ii := firstImageInfo (prop p "imageinfo") in
  let value := prop (prop (prop ii "extmetadata") "ImageDescription") "value" in
  let extract := prop p "extract" in
  let chosen :=
    if truthy value then value
    else if truthy extract then extract
    else JStr "" in
  prop r "description"
  = JStr (match chosen with
          | JStr s => Str.trim (Str.stripTags s)
          | _ => ""
          end).
Proof.
  intros H ii value extract chosen.
  apply normalize_fields in H as (thumbnail & hostPage & -> & _).
  change (prop (JObj _) "description")
    with (JStr (cleanDescription
                  (orElse (orElse value extract) (JStr "")))).
  now rewrite orElse_chain.
Qed.

(** C9, as the code has it.  [width] and [height] are the field of the
    first image-info element when there is such an element and the field
    is truthy; they are [null] when the field is falsy (absent, [null],
    or 0) or when [imageinfo] is not a non-empty array. *)
Theorem dimensions_of_result (p r : JsVal) (field : string) :
  normalize p = Ok r ->
  field = "width" \/ field = "height" ->
  (forall first rest,
      prop p "imageinfo" = JArr (first :: rest) ->
      truthy (prop first field) = true ->
      prop r field = prop first field)
  /\ (forall first rest,
        prop p "imageinfo" = JArr (first :: rest) ->
        truthy (prop first field) = false ->
        prop r field = JNull)
  /\ ((forall first rest, prop p "imageinfo" <> JArr (first :: rest)) ->
      prop r field = JNull).
Proof.
  intros H Hf.
  apply normalize_fields in H as (thumbnail & hostPage & -> & _).
  assert (E : prop (JObj
                [ ("id", prop p "pageid"); ("title", prop p "title");
                  ("thumbnail", thumbnail);
                  ("contentUrl",
                   orElse (prop (firstImageInfo (prop p "imageinfo")) "url") JNull);
                  ("hostPage", hostPage);
                  ("width",
                   orElse (prop (firstImageInfo (prop p "imageinfo")) "width") JNull);
                  ("height",
                   orElse (prop (firstImageInfo (prop p "imageinfo")) "height") JNull);
                  ("description",
                   JStr (cleanDescription
                     (orElse (orElse
                        (prop (prop (prop (firstImageInfo (prop p "imageinfo"))
                                          "extmetadata") "ImageDescription") "value")
                        (prop p "extract")) (JStr "")))) ]) field
              = orElse (prop (firstImageInfo (prop p "imageinfo")) field) JNull).
  { destruct Hf as [-> | ->]; reflexivity. }
  rewrite E. clear E. unfold orElse. repeat split.
  - intros first rest -> Ht. cbn [firstImageInfo]. now rewrite Ht.
  - intros first rest -> Ht. cbn [firstImageInfo]. now rewrite Ht.
  - intros Hno. destruct (prop p "imageinfo") as [| | | | |items|]; try reflexivity.
    destruct items as [|first rest]; [reflexivity|].
    now destruct (Hno first rest).
Qed.

End Normalizer.

Lemma description_of_result_witness :
  prop (JObj [ ("id", JNum (Int 6)); ("title", JStr "File:Cat.jpg");
               ("thumbnail", JNull);
               ("contentUrl", JStr "https://upload.wikimedia.org/cat.jpg");
               ("hostPage", JStr "https://commons.wikimedia.org/wiki/File%3ACat.jpg");
               ("width", JNull); ("height", JNull);
               ("description", JStr "A cat") ]) "description"
  = JStr "A cat".
Proof.
  exact (description_of_result undescribedPage _ eq_refl).
Defined.

(** The description of [undescribedPage] is taken from the extract,
    although the "ImageDescription" value is present; the description of
    [multilingualPage] is empty, although both the value and the extract
    are present. *)
Lemma description_skips_empty_value :
  (exists r, normalize undescribedPage = Ok r
             /\ prop r "description" = JStr "A cat")
  /\ claimed_description undescribedPage = JStr EmptyString
  /\ (exists r, normalize multilingualPage = Ok r
                /\ prop r "description" = JStr EmptyString)
  /\ claimed_description multilingualPage
     = JObj [("en", JStr "A cat"); ("fr", JStr "Un chat")]%string
  /\ ~ (forall p r, normalize p = Ok r ->
                    prop r "description" = claimed_description p).
Proof.
  split; [|split; [|split; [|split]]].
  - eexists. split; reflexivity.
  - reflexivity.
  - eexists. split; reflexivity.
  - reflexivity.
  - intros H. specialize (H undescribedPage _ eq_refl). discriminate.
Qed.

Lemma dimensions_of_result_witness :
  prop (JObj [ ("id", JNum (Int 6)); ("title", JStr "File:Cat.jpg");
               ("thumbnail", JNull);
               ("contentUrl", JStr "https://upload.wikimedia.org/cat.jpg");
               ("hostPage", JStr "https://commons.wikimedia.org/wiki/File%3ACat.jpg");
               ("width", JNull); ("height", JNull);
               ("description", JStr "A cat") ]) "width"
  = JNull.
Proof.
  apply (proj1 (proj2 (dimensions_of_result undescribedPage _ "width"
                         eq_refl (or_introl eq_refl)))
           (JObj [ ("url", JStr "https://upload.wikimedia.org/cat.jpg");
                   ("extmetadata",
                    JObj [("ImageDescription", JObj [("value", JStr "")])]) ])
           []);
    reflexivity.
Defined.

(** The width 0 of [audioPage] is present and is not copied. *)
Lemma zero_width_is_not_copied :
  (exists r, normalize audioPage = Ok r
             /\ prop r "width" = JNull /\ prop r "height" = JNull)
  /\ claimed_dimension "width" audioPage = JNum (Int 0)
  /\ ~ (forall p r, normalize p = Ok r ->
                    prop r "width" = claimed_dimension "width" p).
Proof.
  split; [|split].
  - eexists. repeat split.
  - reflexivity.
  - intros H. specialize (H audioPage _ eq_refl). discriminate.
Qed.

(* ================================================================= *)
(** ** The order of the results *)

Section Enumeration.

Lemma mapM_Forall2 {A B} (f : A -> Res B) (l : list A) (l' : list B) :
  mapM f l = Ok l' -> Forall2 (fun x y => f x = Ok y) l l'.
Proof.
  revert l'; induction l as [|x l IH]; intros l'; simpl.
  - intros [= <-]. constructor.
  - destruct (f x) as [y|] eqn:E; [|discriminate]. cbn [bind].
    destruct (mapM f l) as [ys|]; [|discriminate]. cbn [bind].
    intros [= <-]. constructor; auto.
Qed.

Lemma Forall2_mapM {A B} (f : A -> Res B) (l : list A) (l' : list B) :
  Forall2 (fun x y => f x = Ok y) l l' -> mapM f l = Ok l'.
Proof.
  induction 1 as [|x y l l' E _ IH]; simpl; [reflexivity|].
  now rewrite E, IH.
Qed.

(** An array index determines its key. *)
Lemma arrayIndex_key (k : string) (n : Z) :
  arrayIndex k = Some n -> k = Number.toString (Int n).
Proof.
  unfold arrayIndex. destruct (Number.readDigits 10 None k) as [m|]; [|discriminate].
  destruct (Number.toString (Int m) =? k)%string eqn:E; [|discriminate].
  destruct (m <=? 4294967294); [|discriminate].
  intros [= <-]. apply String.eqb_eq in E. congruence.
Qed.

Lemma in_indexed (o : list (string * JsVal)) (n : Z) (v : JsVal) :
  In (n, v) (indexed o) <-> exists k, In (k, v) o /\ arrayIndex k = Some n.
Proof.
  unfold indexed. rewrite in_flat_map. split.
  - intros ([k w] & Hin & H). simpl in H.
    destruct (arrayIndex k) as [m|] eqn:E; [|contradiction].
    destruct H as [[= <- <-]|[]]. now exists k.
  - intros (k & Hin & E). exists (k, v). split; [assumption|].
    simpl. rewrite E. now left.
Qed.

Lemma indexed_keys_NoDup (o : list (string * JsVal)) :
  NoDup (map fst o) -> NoDup (map fst (indexed o)).
Proof.
  induction o as [|[k v] o IH]; simpl; [constructor|].
  intros H. inversion H as [|? ? Hk Ho]; subst.
  destruct (arrayIndex k) as [n|] eqn:E; simpl; [|auto].
  constructor; [|auto].
  intros Hin. apply in_map_iff in Hin as ([m w] & Hm & Hin). simpl in Hm. subst m.
  apply in_indexed in Hin as (k' & Hin & E').
  apply arrayIndex_key in E, E'. subst k' k.
  apply Hk. apply in_map_iff. now exists (Number.toString (Int n), w).
Qed.

Lemma insertIndexed_perm (e : Z * JsVal) (l : list (Z * JsVal)) :
  Permutation (insertIndexed e l) (e :: l).
Proof.
  induction l as [|x l IH]; simpl; [reflexivity|].
  destruct (fst e <=? fst x); [reflexivity|].
  rewrite IH. apply perm_swap.
Qed.

Lemma sort_perm (l : list (Z * JsVal)) :
  Permutation (fold_right insertIndexed [] l) l.
Proof.
  induction l as [|e l IH]; simpl; [reflexivity|].
  rewrite insertIndexed_perm. now constructor.
Qed.

Lemma insertIndexed_sorted (e : Z * JsVal) (l : list (Z * JsVal)) :
  StronglySorted Z.lt (map fst l) ->
  ~ In (fst e) (map fst l) ->
  StronglySorted Z.lt (map fst (insertIndexed e l)).
Proof.
  induction l as [|x l IH]; simpl; intros Hs Hn.
  - repeat constructor.
  - inversion Hs as [|? ? Hl Hx]; subst.
    destruct (fst e <=? fst x) eqn:E; simpl.
    + apply Z.leb_le in E.
      assert (Hlt : fst e < fst x) by (assert (fst x <> fst e) by tauto; lia).
      constructor; [assumption|]. constructor; [assumption|].
      eapply Forall_impl; [|exact Hx]. intros a Ha. lia.
    + apply Z.leb_gt in E. constructor.
      * apply IH; [assumption | tauto].
      * apply Forall_forall. intros a Ha.
        apply (Permutation_in _ (Permutation_map fst (insertIndexed_perm e l))) in Ha.
        destruct Ha as [<-|Ha]; [assumption|].
        rewrite Forall_forall in Hx. now apply Hx.
Qed.

Lemma sort_sorted (l : list (Z * JsVal)) :
  NoDup (map fst l) ->
  StronglySorted Z.lt (map fst (fold_right insertIndexed [] l)).
Proof.
  induction l as [|e l IH]; simpl; intros H; [constructor|].
  inversion H as [|? ? Hn Hl]; subst.
  apply insertIndexed_sorted; [auto|].
  intros Hin. apply Hn.
  now apply (Permutation_in _ (Permutation_map fst (sort_perm l))).
Qed.

Lemma define_fresh (k : string) (v : JsVal) (o : list (string * JsVal)) :
  ~ In k (map fst o) -> define k v o = o ++ [(k, v)].
Proof.
  induction o as [|[k' v'] o IH]; simpl; [reflexivity|].
  intros H. destruct (k =? k')%string eqn:E.
  - apply String.eqb_eq in E. subst k'. tauto.
  - rewrite IH by tauto. reflexivity.
Qed.

Lemma ownProps_from (ps acc : list (string * JsVal)) :
  NoDup (map fst (acc ++ ps)) ->
  fold_left (fun o kv => define (fst kv) (snd kv) o) ps acc = acc ++ ps.
Proof.
  revert acc; induction ps as [|[k v] ps IH]; intros acc H; simpl.
  - now rewrite app_nil_r.
  - rewrite define_fresh.
    + rewrite IH; rewrite <- app_assoc; [reflexivity | exact H].
    + rewrite map_app in H. simpl in H. apply NoDup_remove_2 in H.
      intros Hin. apply H. apply in_or_app. now left.
Qed.

(** Without repeated keys, the own properties are the members in the
    order of the text. *)
Lemma ownProps_NoDup (ps : list (string * JsVal)) :
  NoDup (map fst ps) -> ownProps ps = ps.
Proof. intros H. unfold ownProps. now rewrite ownProps_from. Qed.

Lemma no_index_keys (ps : list (string * JsVal)) :
  (forall k, In k (map fst ps) -> arrayIndex k = None) ->
  indexed ps = [] /\ named ps = ps.
Proof.
  induction ps as [|[k v] ps IH]; simpl; intros H; [auto|].
  rewrite (H k) by auto. destruct IH as [-> ->]; auto.
Qed.

(** The order of the results, for the part of [searchWikimedia] that
    reads the response. *)
Lemma readResponse_order (query : string) (res : UpstreamResponse)
    (payload : JsVal) (ps : list (string * JsVal)) (data : SearchData) :
  json res = Ok payload ->
  prop (prop payload "query") "pages" = JObj ps ->
  NoDup (map fst ps) ->
  readResponse query res = Ok data ->
  exists byIndex : list (Z * JsVal),
    Forall2 (fun record result => normalize record = Ok result)
            (map snd byIndex ++ map snd (named ps))
            (data_results data)
    /\ StronglySorted Z.lt (map fst byIndex)
    /\ (forall n v,
          In (n, v) byIndex <-> exists k, In (k, v) ps /\ arrayIndex k = Some n)
    /\ ((forall k, In k (map fst ps) -> arrayIndex k = None) ->
        InRawOrder ps (data_results data)).
Proof.
  intros Hjson Hpages Hnodup H. unfold readResponse in H.
  destruct (ok res); [|discriminate]. cbn [negb] in H.
  rewrite Hjson in H. cbn [bind] in H. unfold get in H.
  assert (E : (match payload with JUndef | JNull => Throw TypeError
               | _ => Ok (prop payload "query") end)
              = Ok (prop payload "query")).
  { destruct payload; try reflexivity; discriminate. }
  rewrite E in H. cbn [bind] in H. rewrite Hpages in H.
  change (orElse (JObj ps) (JObj [])) with (JObj ps) in H.
  cbn [values] in H. unfold enumerate in H.
  rewrite (ownProps_NoDup ps Hnodup) in H.
  destruct (mapM normalize _) as [results|] eqn:M; [|discriminate].
  cbn [bind] in H. injection H as <-. cbn [data_results].
  apply mapM_Forall2 in M.
  exists (fold_right insertIndexed [] (indexed ps)).
  split; [exact M|]. split; [|split].
  - apply sort_sorted. now apply indexed_keys_NoDup.
  - intros n v. rewrite <- in_indexed. split; intros Hin.
    + now apply (Permutation_in _ (sort_perm (indexed ps))).
    + now apply (Permutation_in _ (Permutation_sym (sort_perm (indexed ps)))).
  - intros Hno. destruct (no_index_keys ps Hno) as [Ei En].
    rewrite Ei, En in M. simpl in M. unfold InRawOrder.
    clear - M. revert M. generalize results.
    induction ps as [|m ps IH]; intros rs M; inversion M; subst; constructor; auto.
Qed.

(** C2, as the code has it.  For a page mapping without repeated keys,
    the results are the normalized records in the order in which
    [Object.values] enumerates the parsed mapping: first the records
    whose key is an array index (a page id), in ascending numeric order
    of the key, then the other records in the order of the raw mapping.
    Nothing re-sorts after that, and when no key is an array index the
    results are in the order of the raw mapping. *)
Theorem results_in_enumeration_order (fetch : Upstream) (query : string)
    (page per_page : option Num) (res : UpstreamResponse)
    (payload : JsVal) (ps : list (string * JsVal)) (data : SearchData) :
  searchWikimedia fetch query page per_page
  = (upstreamEvents query page per_page, Ok data) ->
  fetch (upstreamRequest query (defaultTo (Int 1) page) (defaultTo (Int 24) per_page))
  = Ok res ->
  json res = Ok payload ->
  prop (prop payload "query") "pages" = JObj ps ->
  NoDup (map fst ps) ->
  exists byIndex : list (Z * JsVal),
    Forall2 (fun record result => normalize record = Ok result)
            (map snd byIndex ++ map snd (named ps))
            (data_results data)
    /\ StronglySorted Z.lt (map fst byIndex)
    /\ (forall n v,
          In (n, v) byIndex <-> exists k, In (k, v) ps /\ arrayIndex k = Some n)
    /\ ((forall k, In k (map fst ps) -> arrayIndex k = None) ->
        InRawOrder ps (data_results data)).
Proof.
  intros Hrun Hres Hjson Hpages Hnodup.
  unfold searchWikimedia in Hrun. fold (defaultTo (Int 1) page) in Hrun.
  fold (defaultTo (Int 24) per_page) in Hrun.
  rewrite Hres in Hrun. cbn [bind] in Hrun. injection Hrun as Hrun.
  now apply (readResponse_order query res payload ps data).
Qed.

End Enumeration.

Lemma results_in_enumeration_order_witness :
  exists data byIndex,
    searchWikimedia (answering searchPayload) "cat" None None
    = (upstreamEvents "cat" None None, Ok data)
    /\ Forall2 (fun record result => normalize record = Ok result)
               (map snd byIndex ++ map snd (named rawPages))
               (data_results data)
    /\ StronglySorted Z.lt (map fst byIndex).
Proof.
  eexists.
  destruct (results_in_enumeration_order (answering searchPayload) "cat"
              None None (mkUpstream true (Int 200) (Ok searchPayload))
              searchPayload rawPages _ eq_refl eq_refl eq_refl eq_refl
              ltac:(repeat constructor; simpl; intuition discriminate))
    as (byIndex & H1 & H2 & _).
  exists byIndex. split; [reflexivity|]. split; assumption.
Defined.

(** The upstream lists page 30 before page 4; [searchWikimedia] and the
    response list page 4 before page 30. *)
Lemma results_leave_raw_order :
  exists data,
    snd (searchWikimedia (answering searchPayload) "cat" None None) = Ok data
    /\ map (fun member => prop (snd member) "pageid") rawPages
       = [JNum (Int 30); JNum (Int 4)]
    /\ map (fun result => prop result "id") (data_results data)
       = [JNum (Int 4); JNum (Int 30)]
    /\ ~ InRawOrder rawPages (data_results data)
    /\ exists results,
         body (snd (handler (answering searchPayload) (onlyQ "cat")))
         = SearchBody "cat" (Int 1) (Int 24) 2 results
         /\ map (fun result => prop result "id") results
            = [JNum (Int 4); JNum (Int 30)].
Proof.
  eexists. split; [reflexivity|]. split; [reflexivity|]. split; [reflexivity|].
  split.
  - unfold InRawOrder. intros H. inversion H as [|? ? ? ? E _]; subst.
    discriminate E.
  - eexists. split; reflexivity.
Qed.

(* ================================================================= *)
(** ** The handler: every outcome *)

Section HandlerOutcomes.

Variable fetch : Upstream.

Lemma errorText_not_empty (e : Exn) : errorText e <> Text EmptyString.
Proof.
  unfold errorText. destruct e as [m| |m|]; simpl; try discriminate;
    destruct m; discriminate.
Qed.

Lemma readResponse_query (query : string) (res : UpstreamResponse)
    (data : SearchData) :
  readResponse query res = Ok data -> data_query data = query.
Proof.
  unfold readResponse. destruct (negb (ok res)); [discriminate|].
  destruct (json res) as [j|]; [|discriminate]. cbn [bind].
  destruct (get j "query") as [qv|]; [|discriminate]. cbn [bind].
  destruct (mapM normalize _) as [rs|]; [|discriminate]. cbn [bind].
  now intros [= <-].
Qed.

(** What a request that is answered 200 went through. *)
Lemma handler_200 (query : Query) events c qy pg pp count results :
  handler fetch query = (events, mkResponse c (SearchBody qy pg pp count results)) ->
  exists n m res data,
    readQ (q query) = Ok qy /\ qy <> EmptyString
    /\ readInt (page query) "1" = Ok n
    /\ readInt (per_page query) "24" = Ok m
    /\ pg = Number.max (Int 1) n
    /\ pp = Number.min (Int 48) (Number.max (Int 8) m)
    /\ events = [Fetch (requestOf qy n m)]
    /\ fetch (requestOf qy n m) = Ok res
    /\ readResponse qy res = Ok data
    /\ filterM (keep (orElse (safe query) (JStr "Strict"))) (data_results data)
       = Ok results
    /\ count = Z.of_nat (List.length results)
    /\ c = 200.
Proof.
  unfold handler. intros H.
  destruct (readQ (q query)) as [text|e] eqn:Hq.
  2:{ unfold searchRoute in H. rewrite Hq in H. discriminate. }
  destruct text as [|ch text].
  { unfold searchRoute in H. rewrite Hq in H. discriminate. }
  destruct (readInt (page query) "1") as [n|e] eqn:Hn.
  2:{ unfold searchRoute in H. rewrite Hq, Hn in H. discriminate. }
  destruct (readInt (per_page query) "24") as [m|e] eqn:Hm.
  2:{ unfold searchRoute in H. rewrite Hq, Hn, Hm in H. discriminate. }
  rewrite (searchRoute_calls fetch query _ n m Hq ltac:(discriminate) Hn Hm) in H.
  destruct (fetch _) as [res|] eqn:Hres; [|discriminate]. cbn [bind] in H.
  destruct (readResponse _ res) as [data|] eqn:Hdata; [|discriminate].
  cbn [bind] in H.
  destruct (filterM _ (data_results data)) as [kept|] eqn:Hkept; [|discriminate].
  cbn [bind] in H.
  injection H as Hev Hc Hqy Hpg Hpp Hcount Hres'.
  rewrite (readResponse_query _ _ _ Hdata) in Hqy. subst.
  exists n, m, res, data.
  repeat split; try assumption; try reflexivity; discriminate.
Qed.

(** Every way a request can end. *)
Lemma handler_shape (query : Query) :
  handler fetch query
  = ([], mkResponse 400 (ErrorBody (Text "Missing q parameter")))
  \/ (exists e,
        handler fetch query
        = ([ConsoleError "search error" e],
           mkResponse 500 (ErrorBody (errorText e))))
  \/ (exists r e,
        handler fetch query
        = ([Fetch r; ConsoleError "search error" e],
           mkResponse 500 (ErrorBody (errorText e))))
  \/ (exists r qy pg pp count results,
        handler fetch query
        = ([Fetch r], mkResponse 200 (SearchBody qy pg pp count results))).
Proof.
  unfold handler.
  destruct (readQ (q query)) as [text|e] eqn:Hq.
  2:{ right; left. exists e. unfold searchRoute. now rewrite Hq. }
  destruct text as [|ch text].
  { left. unfold searchRoute. now rewrite Hq. }
  destruct (readInt (page query) "1") as [n|e] eqn:Hn.
  2:{ right; left. exists e. unfold searchRoute. now rewrite Hq, Hn. }
  destruct (readInt (per_page query) "24") as [m|e] eqn:Hm.
  2:{ right; left. exists e. unfold searchRoute. now rewrite Hq, Hn, Hm. }
  rewrite (searchRoute_calls fetch query _ n m Hq ltac:(discriminate) Hn Hm).
  right; right.
  destruct (fetch _) as [res|e]; cbn [bind];
    [|left; do 2 eexists; reflexivity].
  destruct (readResponse _ res) as [data|e]; cbn [bind];
    [|left; do 2 eexists; reflexivity].
  destruct (filterM _ (data_results data)) as [kept|e]; cbn [bind];
    [right; do 6 eexists | left; do 2 eexists]; reflexivity.
Qed.

(** Every way the [try] block can end. *)
Lemma searchRoute_shape (query : Query) :
  searchRoute fetch query
  = ([], Ok (mkResponse 400 (ErrorBody (Text "Missing q parameter"))))
  \/ (exists e, searchRoute fetch query = ([], Throw e))
  \/ (exists r e, searchRoute fetch query = ([Fetch r], Throw e))
  \/ (exists r qy pg pp count results,
        searchRoute fetch query
        = ([Fetch r], Ok (mkResponse 200 (SearchBody qy pg pp count results)))).
Proof.
  destruct (readQ (q query)) as [text|e] eqn:Hq.
  2:{ right; left. exists e. unfold searchRoute. now rewrite Hq. }
  destruct text as [|ch text].
  { left. unfold searchRoute. now rewrite Hq. }
  destruct (readInt (page query) "1") as [n|e] eqn:Hn.
  2:{ right; left. exists e. unfold searchRoute. now rewrite Hq, Hn. }
  destruct (readInt (per_page query) "24") as [m|e] eqn:Hm.
  2:{ right; left. exists e. unfold searchRoute. now rewrite Hq, Hn, Hm. }
  rewrite (searchRoute_calls fetch query _ n m Hq ltac:(discriminate) Hn Hm).
  right; right.
  destruct (fetch _) as [res|e]; cbn [bind];
    [|left; do 2 eexists; reflexivity].
  destruct (readResponse _ res) as [data|e]; cbn [bind];
    [|left; do 2 eexists; reflexivity].
  destruct (filterM _ (data_results data)) as [kept|e]; cbn [bind];
    [right; do 6 eexists | left; do 2 eexists]; reflexivity.
Qed.

(** X1.  The handler answers in one of three ways.  A 200 is the
    response the [try] block returned: a search body, after exactly one
    upstream call and nothing logged.  A 400 is returned by the [try]
    block too: [{"error":"Missing q parameter"}], with no upstream call
    and nothing logged.  A 500 comes from the [catch]: the [try] block
    threw an error after at most one upstream call, that error is logged
    under "search error" as the last event, and the [error] of the body
    is its message ("Server error" if the message is empty). *)
Theorem response_is_200_400_or_500 (query : Query) :
  let events := fst (handler fetch query) in
  let response := snd (handler fetch query) in
  (code response = 200
   /\ searchRoute fetch query = (events, Ok response)
   /\ (exists qy pg pp count results,
         body response = SearchBody qy pg pp count results)
   /\ exists request, events = [Fetch request])
  \/ (code response = 400
      /\ searchRoute fetch query = (events, Ok response)
      /\ body response = ErrorBody (Text "Missing q parameter")
      /\ events = [])
  \/ (code response = 500
      /\ exists caught before,
           searchRoute fetch query = (before, Throw caught)
           /\ events = before ++ [ConsoleError "search error" caught]
           /\ body response = ErrorBody (errorText caught)
           /\ (before = [] \/ exists request, before = [Fetch request])).
Proof.
  unfold handler.
  destruct (searchRoute_shape query)
    as [H|[(e & H)|[(r & e & H)|(r & qy & pg & pp & n & rs & H)]]];
    rewrite H; cbn [fst snd code body].
  - right; left. repeat split.
  - right; right. split; [reflexivity|]. exists e, [].
    split; [reflexivity|]. split; [reflexivity|].
    split; [reflexivity | now left].
  - right; right. split; [reflexivity|]. exists e, [Fetch r].
    split; [reflexivity|]. split; [reflexivity|].
    split; [reflexivity | right; now exists r].
  - left. split; [reflexivity|]. split; [reflexivity|].
    split; [now exists qy, pg, pp, n, rs|]. now exists r.
Qed.

(** X2.  A request makes at most one upstream call, and a line is
    written to the error log exactly when the answer is 500. *)
Theorem at_most_one_upstream_call (query : Query) :
  let events := fst (handler fetch query) in
  (List.length (upstreamCalls events) <= 1)%nat
  /\ ((exists label e, In (ConsoleError label e) events)
      <-> code (snd (handler fetch query)) = 500).
Proof.
  destruct (handler_shape query)
    as [H|[(e & H)|[(r & e & H)|(r & qy & pg & pp & n & rs & H)]]];
    rewrite H; cbn [fst snd code upstreamCalls flat_map app List.length];
    (split; [lia|]); split; intros K; try reflexivity; try discriminate.
  - destruct K as (l & e & []).
  - exists "search error"%string, e. now left.
  - exists "search error"%string, e. right. now left.
  - destruct K as (l & e & [K|[]]). discriminate.
Qed.

(** X3.  The [error] of an error body is never the empty string: an
    error without a message is reported as "Server error". *)
Theorem error_text_is_never_empty (query : Query) :
  body (snd (handler fetch query)) <> ErrorBody (Text EmptyString).
Proof.
  destruct (handler_shape query)
    as [H|[(e & H)|[(r & e & H)|(r & qy & pg & pp & n & rs & H)]]];
    rewrite H; cbn [snd body]; try discriminate;
    intros [= K]; now apply (errorText_not_empty e).
Qed.

(** X4.  In a search body, [count] is the number of results, and the
    answer is a 200. *)
Theorem count_is_number_of_results (query : Query)
    events c qy pg pp count results :
  handler fetch query = (events, mkResponse c (SearchBody qy pg pp count results)) ->
  count = Z.of_nat (List.length results) /\ c = 200.
Proof.
  intros H. apply handler_200 in H as (n & m & res & data & H).
  tauto.
Qed.

(** X5.  A [q] that is not a string (a repeated [q] parameter is an
    array, [q[k]=v] an object) is not reported as missing: [trim] is not
    a function of it, the request fails with 500 and no upstream call is
    made. *)
Theorem q_that_is_no_string_is_500 (query : Query) :
  truthy (q query) = true ->
  (forall s, q query <> JStr s) ->
  handler fetch query
  = ([ConsoleError "search error" TypeError],
     mkResponse 500 (ErrorBody EngineText)).
Proof.
  intros Ht Hs. unfold handler, searchRoute, readQ, orElse. rewrite Ht.
  destruct (q query) as [| | | |s| |]; try reflexivity.
  now destruct (Hs s).
Qed.

(** X6.  The [query] of a search body is the trimmed [q], it is not
    empty, and it is the [gsrsearch] of the upstream call that was
    made. *)
Theorem query_is_trimmed_q (query : Query) events c qy pg pp count results :
  handler fetch query = (events, mkResponse c (SearchBody qy pg pp count results)) ->
  (exists s, q query = JStr s /\ qy = Str.trim s)
  /\ qy <> EmptyString
  /\ exists request,
       events = [Fetch request]
       /\ param "gsrsearch" (params request) = Some qy.
Proof.
  intros H. apply handler_200 in H
    as (n & m & res & data & Hq & Hne & _ & _ & _ & _ & Hev & _).
  split; [|split; [assumption|]].
  - unfold readQ, orElse in Hq.
    destruct (q query) as [| |b|k|s|l|o]; simpl in Hq;
      try (injection Hq as <-; now destruct Hne);
      try discriminate.
    + destruct b; [discriminate|]. injection Hq as <-. now destruct Hne.
    + destruct k as [|z|negative];
        [injection Hq as <-; now destruct Hne| |discriminate].
      destruct (z =? 0); [injection Hq as <-; now destruct Hne | discriminate].
    + exists s. split; [reflexivity|].
      destruct (s =? "")%string eqn:E; simpl in Hq.
      * injection Hq as <-. now destruct Hne.
      * now injection Hq as <-.
  - exists (requestOf qy n m). split; [assumption | reflexivity].
Qed.

End HandlerOutcomes.

Lemma count_is_number_of_results_witness :
  2 = Z.of_nat (List.length
        (match body (snd (handler (answering searchPayload) (onlyQ "cat"))) with
         | SearchBody _ _ _ _ results => results
         | ErrorBody _ => []
         end))
  /\ 200 = 200.
Proof.
  exact (count_is_number_of_results (answering searchPayload) (onlyQ "cat")
           _ _ _ _ _ _ _ eq_refl).
Defined.

Lemma q_that_is_no_string_is_500_witness :
  handler (answering searchPayload)
    (mkQuery (JArr [JStr "cat"; JStr "dog"]) JUndef JUndef JUndef)
  = ([ConsoleError "search error" TypeError],
     mkResponse 500 (ErrorBody EngineText)).
Proof.
  apply q_that_is_no_string_is_500; [reflexivity | discriminate].
Defined.

Lemma query_is_trimmed_q_witness :
  (exists s, JStr "  cat " = JStr s /\ "cat"%string = Str.trim s)
  /\ "cat"%string <> EmptyString
  /\ exists request,
       [Fetch (upstreamRequest "cat" (Int 1) (Int 24))] = [Fetch request]
       /\ param "gsrsearch" (params request) = Some "cat"%string.
Proof.
  exact (query_is_trimmed_q (answering searchPayload) (onlyQ "  cat ")
           _ _ _ _ _ _ _ eq_refl).
Defined.

(* ================================================================= *)
(** ** The handler: what the filter keeps *)

Section HandlerFilter.

Variable fetch : Upstream.

Lemma filterM_subseq {A} (f : A -> Res bool) (l kept : list A) :
  filterM f l = Ok kept -> Subseq kept l.
Proof.
  revert kept; induction l as [|x l IH]; intros kept; simpl.
  - intros [= <-]. constructor.
  - destruct (f x) as [b|]; [|discriminate]. cbn [bind].
    destruct (filterM f l) as [r|]; [|discriminate]. cbn [bind].
    intros [= <-]. specialize (IH r eq_refl).
    destruct b; now constructor.
Qed.

Lemma filterM_filter {A} (f : A -> Res bool) (g : A -> bool) (l : list A) :
  Forall (fun x => f x = Ok (g x)) l -> filterM f l = Ok (filter g l).
Proof.
  induction 1 as [|x l E _ IH]; simpl; [reflexivity|].
  now rewrite E, IH.
Qed.

Lemma normalize_object (p r : JsVal) :
  normalize p = Ok r -> exists fields, r = JObj fields.
Proof.
  intros H. apply normalize_fields in H as (t & h & -> & _). eauto.
Qed.

Lemma mapM_normalize_objects (records results : list JsVal) :
  mapM normalize records = Ok results ->
  Forall (fun r => exists fields, r = JObj fields) results.
Proof.
  intros H. apply mapM_Forall2 in H.
  induction H as [|p r ps rs E _ IH]; constructor; [|assumption].
  now apply normalize_object in E.
Qed.

Lemma readResponse_objects (query : string) (res : UpstreamResponse)
    (data : SearchData) :
  readResponse query res = Ok data ->
  Forall (fun r => exists fields, r = JObj fields) (data_results data).
Proof.
  unfold readResponse. destruct (negb (ok res)); [discriminate|].
  destruct (json res) as [j|]; [|discriminate]. cbn [bind].
  destruct (get j "query") as [qv|]; [|discriminate]. cbn [bind].
  destruct (mapM normalize _) as [rs|] eqn:E; [|discriminate]. cbn [bind].
  intros [= <-]. now apply mapM_normalize_objects in E.
Qed.

(** Outside Strict mode the filter callback only asks for an image. *)
Lemma keep_open (mode : JsVal) (fields : list (string * JsVal)) :
  effectiveMode mode <> JStr "Strict" ->
  keep mode (JObj fields) = Ok (hasImage (JObj fields)).
Proof.
  intros Hm. unfold keep, hasImage. cbn [get bind].
  rewrite (passesSafeFilter_open (JObj fields) mode eq_refl Hm).
  destruct (truthy (prop (JObj fields) "thumbnail")),
           (truthy (prop (JObj fields) "contentUrl")); reflexivity.
Qed.

Lemma safe_mode_defined (v : JsVal) :
  effectiveMode (orElse v (JStr "Strict")) = orElse v (JStr "Strict").
Proof.
  unfold orElse. destruct (truthy v) eqn:E; [|reflexivity].
  destruct v; try reflexivity; discriminate.
Qed.

(** X7.  The results of a search body are normalized records of the
    upstream answer, in their order: the filter leaves records out, it
    neither reorders, repeats nor alters them. *)
Theorem results_are_a_subsequence (query : Query)
    events c qy pg pp count results :
  handler fetch query = (events, mkResponse c (SearchBody qy pg pp count results)) ->
  exists request res data,
    events = [Fetch request]
    /\ fetch request = Ok res
    /\ readResponse qy res = Ok data
    /\ Subseq results (data_results data).
Proof.
  intros H. apply handler_200 in H
    as (n & m & res & data & _ & _ & _ & _ & _ & _ & Hev & Hres & Hdata & Hk & _).
  exists (requestOf qy n m), res, data. repeat split; try assumption.
  now apply filterM_subseq in Hk.
Qed.

(** X8.  When [safe] is anything but "Strict" (and not absent or
    empty, which mean Strict), the results are exactly the normalized
    records that have a thumbnail or a content URL, in their order:
    Moderate, Off and unknown modes filter nothing else. *)
Theorem open_modes_keep_every_image (query : Query)
    events c qy pg pp count results :
  handler fetch query = (events, mkResponse c (SearchBody qy pg pp count results)) ->
  orElse (safe query) (JStr "Strict") <> JStr "Strict" ->
  exists request res data,
    events = [Fetch request]
    /\ fetch request = Ok res
    /\ readResponse qy res = Ok data
    /\ results = filter hasImage (data_results data).
Proof.
  intros H Hmode. apply handler_200 in H
    as (n & m & res & data & _ & _ & _ & _ & _ & _ & Hev & Hres & Hdata & Hk & _).
  exists (requestOf qy n m), res, data. repeat split; try assumption.
  rewrite (filterM_filter _ hasImage) in Hk; [now injection Hk|].
  eapply Forall_impl; [|exact (readResponse_objects _ _ _ Hdata)].
  intros r (fields & ->). apply keep_open. now rewrite safe_mode_defined.
Qed.

(** X9.  An upstream answer without [query] or without [query.pages]
    (the search matched nothing) gives a 200 with no results and
    [count] 0. *)
Theorem no_pages_is_an_empty_200 (query : Query) (text : string) (n m : Num)
    (res : UpstreamResponse) (payload : JsVal) :
  readQ (q query) = Ok text ->
  text <> EmptyString ->
  readInt (page query) "1" = Ok n ->
  readInt (per_page query) "24" = Ok m ->
  fetch (requestOf text n m) = Ok res ->
  ok res = true ->
  json res = Ok payload ->
  present payload = true ->
  truthy (prop (prop payload "query") "pages") = false ->
  handler fetch query
  = ([Fetch (requestOf text n m)],
     mkResponse 200
       (SearchBody text (Number.max (Int 1) n)
          (Number.min (Int 48) (Number.max (Int 8) m)) 0 [])).
Proof.
  intros Hq Hne Hn Hm Hres Hok Hjson Hp Hpages. unfold handler.
  rewrite (searchRoute_calls fetch query text n m Hq Hne Hn Hm), Hres.
  cbn [bind]. unfold readResponse. rewrite Hok, Hjson. cbn [negb bind].
  assert (E : get payload "query" = Ok (prop payload "query")).
  { destruct payload; try reflexivity; discriminate. }
  rewrite E. cbn [bind]. unfold orElse. rewrite Hpages. reflexivity.
Qed.

(** X10.  When [fetch] rejects, or the body of a success answer cannot
    be read as JSON, the request fails with 500: the rejection is logged
    and its message is the [error] of the body. *)
Theorem unreadable_upstream_is_500 (query : Query) (text : string) (n m : Num)
    (e : Exn) :
  readQ (q query) = Ok text ->
  text <> EmptyString ->
  readInt (page query) "1" = Ok n ->
  readInt (per_page query) "24" = Ok m ->
  fetch (requestOf text n m) = Throw e
  \/ (exists res, fetch (requestOf text n m) = Ok res
                  /\ ok res = true /\ json res = Throw e) ->
  handler fetch query
  = ([Fetch (requestOf text n m); ConsoleError "search error" e],
     mkResponse 500 (ErrorBody (errorText e))).
Proof.
  intros Hq Hne Hn Hm H. unfold handler.
  rewrite (searchRoute_calls fetch query text n m Hq Hne Hn Hm).
  destruct H as [H|(res & H & Hok & Hjson)]; rewrite H; cbn [bind].
  - reflexivity.
  - unfold readResponse. rewrite Hok, Hjson. reflexivity.
Qed.

End HandlerFilter.

Lemma results_are_a_subsequence_witness :
  exists request res data,
    [Fetch (upstreamRequest "cat" (Int 1) (Int 24))] = [Fetch request]
    /\ answering searchPayload request = Ok res
    /\ readResponse "cat" res = Ok data
    /\ Subseq (match body (snd (handler (answering searchPayload) (onlyQ "cat"))) with
               | SearchBody _ _ _ _ results => results
               | ErrorBody _ => []
               end)
              (data_results data).
Proof.
  exact (results_are_a_subsequence (answering searchPayload) (onlyQ "cat")
           _ _ _ _ _ _ _ eq_refl).
Defined.

Lemma open_modes_keep_every_image_witness :
  exists request res data,
    [Fetch (upstreamRequest "cat" (Int 1) (Int 24))] = [Fetch request]
    /\ answering searchPayload request = Ok res
    /\ readResponse "cat" res = Ok data
    /\ match body (snd (handler (answering searchPayload)
                          (mkQuery (JStr "cat") (JStr "Off") JUndef JUndef))) with
       | SearchBody _ _ _ _ results => results
       | ErrorBody _ => []
       end
       = filter hasImage (data_results data).
Proof.
  apply (open_modes_keep_every_image (answering searchPayload)
           (mkQuery (JStr "cat") (JStr "Off") JUndef JUndef)
           _ _ _ _ _ _ _ eq_refl).
  discriminate.
Defined.

Lemma no_pages_is_an_empty_200_witness :
  handler (answering (JObj [("batchcomplete", JStr EmptyString)]%string)) (onlyQ "zzzz")
  = ([Fetch (upstreamRequest "zzzz" (Int 1) (Int 24))],
     mkResponse 200 (SearchBody "zzzz" (Int 1) (Int 24) 0 [])).
Proof.
  apply (no_pages_is_an_empty_200
           (answering (JObj [("batchcomplete", JStr EmptyString)]%string))
           (onlyQ "zzzz") "zzzz"%string (Int 1) (Int 24)
           (mkUpstream true (Int 200)
              (Ok (JObj [("batchcomplete", JStr EmptyString)]%string)))
           (JObj [("batchcomplete", JStr EmptyString)]%string));
    try reflexivity.
  discriminate.
Defined.

Lemma unreadable_upstream_is_500_witness :
  handler (fun _ => Throw (Rejected "getaddrinfo ENOTFOUND"%string)) (onlyQ "cat")
  = ([Fetch (upstreamRequest "cat" (Int 1) (Int 24));
      ConsoleError "search error" (Rejected "getaddrinfo ENOTFOUND")],
     mkResponse 500 (ErrorBody (Text "getaddrinfo ENOTFOUND"))).
Proof.
  apply (unreadable_upstream_is_500
           (fun _ => Throw (Rejected "getaddrinfo ENOTFOUND"%string))
           (onlyQ "cat") "cat"%string (Int 1) (Int 24));
    try reflexivity.
  - discriminate.
  - now left.
Defined.

(* ================================================================= *)
(** ** Numbers in and out: [parseInt] and [String] *)

Section Numerals.

Lemma readDigits_numeral (d : Decimal.uint) (acc : Z) :
  Number.readDigits 10 (Some acc) (NilEmpty.string_of_uint d)
  = Some (decimalValue acc d).
Proof.
  revert acc; induction d; intros acc;
    cbn [NilEmpty.string_of_uint decimalValue];
    [reflexivity | ..];
    cbn [Number.readDigits]; (etransitivity; [|apply IHd]); reflexivity.
Qed.

Lemma decimalValue_acc (d : Decimal.uint) (acc : positive) :
  Z.pos (Pos.of_uint_acc d acc) = decimalValue (Z.pos acc) d.
Proof.
  revert acc; induction d; intros acc; cbn [Pos.of_uint_acc decimalValue];
    [reflexivity | ..];
    rewrite IHd; f_equal; lia.
Qed.

Lemma decimalValue_of_uint (d : Decimal.uint) :
  decimalValue 0 d = Z.of_uint d.
Proof.
  unfold Z.of_uint.
  induction d; cbn [decimalValue Pos.of_uint]; [reflexivity | exact IHd | ..];
    cbn [Z.of_N]; rewrite decimalValue_acc; reflexivity.
Qed.

Lemma nzhead_leading (d : Decimal.uint) :
  Decimal.nzhead d = Decimal.Nil \/ leading (Decimal.nzhead d) = true.
Proof. induction d; simpl; auto. Qed.

Lemma to_uint_leading (p : positive) : leading (Pos.to_uint p) = true.
Proof.
  assert (E : Pos.to_uint p = Decimal.unorm (Pos.to_uint p)).
  { rewrite <- (DecimalPos.Unsigned.to_of (Pos.to_uint p)).
    now rewrite DecimalPos.Unsigned.of_to. }
  assert (N := DecimalPos.Unsigned.to_uint_nonzero p).
  rewrite E in *. unfold Decimal.unorm in *.
  destruct (nzhead_leading (Pos.to_uint p)) as [H|H].
  - rewrite H in N. now destruct N.
  - destruct (Decimal.nzhead (Pos.to_uint p)); try discriminate; reflexivity.
Qed.

Lemma readDigits_first (c : ascii) (v : Z) (r : string) :
  Number.digitValue 10 c = Some v ->
  Number.readDigits 10 None (String c r) = Number.readDigits 10 (Some v) r.
Proof. intros H. cbn [Number.readDigits]. now rewrite H. Qed.

Lemma parseInt_numeral (d : Decimal.uint) :
  leading d = true ->
  Number.parseInt (NilZero.string_of_uint d)
  = Number.fromInteger (decimalValue 0 d)
  /\ Number.parseInt (String "-" (NilZero.string_of_uint d))
     = Number.fromInteger (- decimalValue 0 d).
Proof.
  destruct d; try discriminate; intros _;
    unfold Number.parseInt;
    cbn [NilZero.string_of_uint NilEmpty.string_of_uint decimalValue];
    cbn [Str.trimStart];
    match goal with
    | |- context [Str.isWhiteSpace ?c] =>
        change (Str.isWhiteSpace c) with false;
        change (Str.isWhiteSpace "-") with false
    end;
    cbv iota;
    split;
    (erewrite readDigits_first by reflexivity);
    rewrite readDigits_numeral; reflexivity.
Qed.

(** [parseInt] undoes [String] on the integers up to 2^53. *)
Lemma parseInt_of_toString (z : Z) :
  Z.abs z <= Number.maxSafe ->
  Number.parseInt (Number.toString (Int z)) = Int z.
Proof.
  intros Hz. unfold Number.toString, Number.decimal.
  rewrite (proj2 (Z.leb_le _ _) Hz).
  destruct z as [|p|p]; cbn [Z.to_int NilZero.string_of_int].
  - reflexivity.
  - rewrite (proj1 (parseInt_numeral _ (to_uint_leading p))).
    rewrite decimalValue_of_uint. unfold Z.of_uint.
    rewrite DecimalPos.Unsigned.of_to. now apply fromInteger_safe.
  - rewrite (proj2 (parseInt_numeral _ (to_uint_leading p))).
    rewrite decimalValue_of_uint. unfold Z.of_uint.
    rewrite DecimalPos.Unsigned.of_to. now apply fromInteger_safe.
Qed.

Lemma toString_not_empty (z : Z) :
  Z.abs z <= Number.maxSafe -> Number.toString (Int z) <> EmptyString.
Proof.
  intros Hz E. generalize (parseInt_of_toString z Hz). rewrite E. discriminate.
Qed.

Lemma readInt_of_toString (z : Z) (fallback : string) :
  Z.abs z <= Number.maxSafe ->
  readInt (JStr (Number.toString (Int z))) fallback = Ok (Int z).
Proof.
  intros Hz. unfold readInt, orElse. cbn [truthy].
  destruct (Number.toString (Int z) =? "")%string eqn:E.
  - apply String.eqb_eq in E. now destruct (toString_not_empty z Hz).
  - cbn [negb toStr bind]. now rewrite parseInt_of_toString.
Qed.

Lemma envOr_of_toString (z : Z) (fallback : string) :
  Z.abs z <= Number.maxSafe ->
  envOr (Some (Number.toString (Int z))) fallback = Number.toString (Int z).
Proof.
  intros Hz. unfold envOr.
  destruct (Number.toString (Int z) =? "")%string eqn:E; [|reflexivity].
  apply String.eqb_eq in E. now destruct (toString_not_empty z Hz).
Qed.

Variable fetch : Upstream.

(** X12.  For a [page] and a [per_page] given as the decimal texts of
    integers [n] and [m] up to 2^53, with page = max(1, [n]) and size =
    [m] clamped to [8,48] such that (page - 1) * size is at most 2^53
    (the range in which the arithmetic of the code is exact), the
    upstream is asked for [gsrlimit] = size and for [gsroffset] =
    (page - 1) * size; the offset is not negative, and a search body
    reports that page and that page size. *)
Theorem decimal_parameters (query : Query) (text : string) (n m : Z) :
  readQ (q query) = Ok text ->
  text <> EmptyString ->
  page query = JStr (Number.toString (Int n)) ->
  per_page query = JStr (Number.toString (Int m)) ->
  Z.abs n <= Number.maxSafe ->
  Z.abs m <= Number.maxSafe ->
  (Z.max 1 n - 1) * Z.min 48 (Z.max 8 m) <= Number.maxSafe ->
  let P := Z.max 1 n in
  let S := Z.min 48 (Z.max 8 m) in
  let request := upstreamRequest text (Int P) (Int S) in
  upstreamCalls (fst (handler fetch query)) = [request]
  /\ param "gsrlimit" (params request) = Some (Number.toString (Int S))
  /\ param "gsroffset" (params request)
     = Some (Number.toString (Int ((P - 1) * S)))
  /\ 0 <= (P - 1) * S
  /\ (forall events c qy pg pp count results,
        handler fetch query
        = (events, mkResponse c (SearchBody qy pg pp count results)) ->
        pg = Int P /\ pp = Int S).
Proof.
  intros Hq Hne Hpage Hper Hsn Hsm Hprod P S request.
  assert (Hn : readInt (page query) "1" = Ok (Int n))
    by (rewrite Hpage; now apply readInt_of_toString).
  assert (Hm : readInt (per_page query) "24" = Ok (Int m))
    by (rewrite Hper; now apply readInt_of_toString).
  assert (Hoff : sroffset (Int P) (Int S) = Int ((P - 1) * S)).
  { apply sroffset_exact.
    - unfold P. lia.
    - unfold S. lia.
    - unfold P. unfold Number.maxSafe in *. lia.
    - exact Hprod. }
  split; [|split; [|split; [|split]]].
  - unfold handler.
    rewrite (searchRoute_calls fetch query text _ _ Hq Hne Hn Hm).
    fold request. unfold requestOf. cbn [Number.max Number.min]. fold P S request.
    destruct (let* res := fetch request in _); reflexivity.
  - reflexivity.
  - unfold request. cbn [params upstreamRequest]. unfold upstreamParams.
    now rewrite Hoff.
  - unfold P, S. nia.
  - intros events c qy pg pp count results H.
    apply handler_200 in H as (n' & m' & _ & _ & _ & _ & Hn' & Hm' & -> & -> & _).
    rewrite Hn in Hn'. rewrite Hm in Hm'.
    injection Hn' as <-. injection Hm' as <-. split; reflexivity.
Qed.

(** X11.  In a search body whose [per_page] is a number, that number
    is an integer from 8 to 48, and the [gsrlimit] the handler sent to
    the upstream is its decimal text: read back with [parseInt], as line
    120 reads the parameter, it is the [per_page] of the body. *)
Theorem gsrlimit_reads_back_as_per_page
    (query : Query) events c qy pg pp count results :
  handler fetch query
  = (events, mkResponse c (SearchBody qy pg pp count results)) ->
  pp <> NaN ->
  exists request z,
    events = [Fetch request]
    /\ pp = Int z /\ 8 <= z <= 48
    /\ param "gsrlimit" (params request) = Some (Number.toString pp)
    /\ Number.parseInt (Number.toString pp) = pp.
Proof.
  intros H Hnum.
  apply handler_200 in H
    as (n & m & _ & _ & _ & _ & _ & _ & -> & Hpp & Hev & _).
  assert (Hz : exists z, pp = Int z /\ 8 <= z <= 48).
  { rewrite Hpp in *. destruct m as [|z|[]].
    - now destruct Hnum.
    - exists (Z.min 48 (Z.max 8 z)). split; [reflexivity | lia].
    - exists 8. split; [reflexivity | lia].
    - exists 48. split; [reflexivity | lia]. }
  destruct Hz as (z & Ez & Hz).
  exists (requestOf qy n m), z.
  split; [exact Hev|]. split; [exact Ez|]. split; [exact Hz|].
  split.
  - unfold requestOf. rewrite <- Hpp. reflexivity.
  - rewrite Ez. apply parseInt_of_toString. unfold Number.maxSafe. lia.
Qed.

(** X13.  The rate limit and the port are read with [parseInt]: an
    unset or empty variable gives the default (30 requests per window,
    port 3000), and a variable holding the decimal text of an integer up
    to 2^53 gives that integer. *)
Theorem configuration_numbers (z : Z) :
  Z.abs z <= Number.maxSafe ->
  rateLimitMax None = Int 30
  /\ rateLimitMax (Some EmptyString) = Int 30
  /\ rateLimitMax (Some (Number.toString (Int z))) = Int z
  /\ PORT None = Int 3000
  /\ PORT (Some EmptyString) = Int 3000
  /\ PORT (Some (Number.toString (Int z))) = Int z.
Proof.
  intros Hz. unfold rateLimitMax, PORT.
  rewrite !envOr_of_toString, parseInt_of_toString by assumption.
  repeat split.
Qed.

End Numerals.

Lemma decimal_parameters_witness :
  upstreamCalls (fst (handler (answering searchPayload)
                        (mkQuery (JStr "cat") JUndef (JStr "3") (JStr "100"))))
  = [upstreamRequest "cat" (Int 3) (Int 48)]
  /\ param "gsroffset" (params (upstreamRequest "cat" (Int 3) (Int 48)))
     = Some "96"%string.
Proof.
  destruct (decimal_parameters (answering searchPayload)
              (mkQuery (JStr "cat") JUndef (JStr "3") (JStr "100"))
              "cat"%string 3 100 eq_refl ltac:(discriminate) eq_refl eq_refl
              ltac:(unfold Number.maxSafe; lia)
              ltac:(unfold Number.maxSafe; lia)
              ltac:(unfold Number.maxSafe; lia))
    as (H1 & _ & H3 & _).
  split; [exact H1 | exact H3].
Defined.

Lemma gsrlimit_reads_back_as_per_page_witness :
  exists request z,
    [Fetch (upstreamRequest "cat" (Int 1) (Int 48))] = [Fetch request]
    /\ Int 48 = Int z /\ 8 <= z <= 48
    /\ param "gsrlimit" (params request) = Some (Number.toString (Int 48))
    /\ Number.parseInt (Number.toString (Int 48)) = Int 48.
Proof.
  apply (gsrlimit_reads_back_as_per_page (answering (JObj []))
           (mkQuery (JStr "cat") JUndef JUndef (JStr "100"))
           [Fetch (upstreamRequest "cat" (Int 1) (Int 48))] 200
           "cat"%string (Int 1) (Int 48) 0 []);
    [reflexivity | discriminate].
Defined.

Lemma configuration_numbers_witness :
  rateLimitMax (Some "120"%string) = Int 120
  /\ PORT (Some "8080"%string) = Int 8080.
Proof.
  split.
  - exact (proj1 (proj2 (proj2 (configuration_numbers 120
             ltac:(unfold Number.maxSafe; lia))))).
  - exact (proj2 (proj2 (proj2 (proj2 (proj2 (configuration_numbers 8080
             ltac:(unfold Number.maxSafe; lia))))))).
Defined.

(* ================================================================= *)
(** ** The safety filter: where a term can match *)

Section FilterMatches.

Local Open Scope string_scope.

Lemma occurs_left (pat a b : string) : Occurs pat a -> Occurs pat (a ++ b).
Proof.
  intros (pre & post & ->). exists pre, (post ++ b).
  now rewrite !append_assoc.
Qed.

Lemma occurs_right (pat a b : string) : Occurs pat b -> Occurs pat (a ++ b).
Proof.
  intros (pre & post & ->). exists (a ++ pre), post.
  now rewrite !append_assoc.
Qed.

(** A text without [sep] that starts [a ++ sep ++ b] lies within [a]. *)
Lemma prefix_before (sep : ascii) (pat a b post : string) :
  Lacks sep pat ->
  a ++ String sep b = pat ++ post ->
  exists rest, a = pat ++ rest.
Proof.
  revert a; induction pat as [|c pat IH]; intros a Hl H.
  - now exists a.
  - destruct Hl as [Hc Hl]. destruct a as [|d a]; simpl in H.
    + injection H as H _. congruence.
    + injection H as -> H. destruct (IH a Hl H) as [rest ->]. now exists rest.
Qed.

(** A term without [sep] that occurs in [a ++ sep ++ b] occurs in [a] or
    in [b]. *)
Lemma occurs_across (sep : ascii) (pat a b : string) :
  Lacks sep pat -> pat <> "" ->
  Occurs pat (a ++ String sep b) -> Occurs pat a \/ Occurs pat b.
Proof.
  intros Hl Hne (pre & post & H). revert pre H.
  induction a as [|c a IH]; intros pre H.
  - destruct pre as [|d pre]; simpl in H.
    + destruct pat as [|e pat]; [congruence|]. simpl in H.
      injection H as H _. destruct Hl as [Hl _]. congruence.
    + injection H as _ H. right. now exists pre, post.
  - destruct pre as [|d pre].
    + left. change (String c a ++ String sep b) with ((String c a) ++ String sep b) in H.
      destruct (prefix_before sep pat (String c a) b post Hl H) as [rest ->].
      now exists "", rest.
    + simpl in H. injection H as _ H.
      destruct (IH pre H) as [(p1 & p2 & ->)|K]; [left|now right].
      now exists (String c p1), p2.
Qed.

Lemma Ok_inj {A} (a b : A) : Ok a = Ok b -> a = b.
Proof. congruence. Qed.

Lemma blacklist_terms :
  Forall (fun bad => bad <> "" /\ Lacks " " bad) BLACKLIST.
Proof.
  unfold BLACKLIST. repeat constructor; simpl; try discriminate;
    repeat split; discriminate.
Qed.

Lemma toStr_text (s : string) : toStr (orElse (JStr s) (JStr "")) = Ok s.
Proof. unfold orElse. simpl. now destruct s. Qed.

Lemma filterText_strings (fields : list (string * JsVal)) (title description : string) :
  prop (JObj fields) "title" = JStr title ->
  prop (JObj fields) "description" = JStr description ->
  filterText (JObj fields) = Ok (title ++ " " ++ description).
Proof.
  intros Ht Hd. unfold filterText. now rewrite Ht, Hd, !toStr_text.
Qed.

(** X14.  In Strict mode a record with a text title and description is
    rejected exactly when a blacklisted term occurs in the lower-cased
    title or in the lower-cased description: joining the two with a
    space never makes a term match across them. *)
Theorem rejected_by_title_or_description
    (fields : list (string * JsVal)) (title description : string) :
  prop (JObj fields) "title" = JStr title ->
  prop (JObj fields) "description" = JStr description ->
  (passesSafeFilter (JObj fields) (JStr "Strict") = Ok false <->
   exists bad, In bad BLACKLIST /\
     (Occurs bad (Str.toLowerCase title)
      \/ Occurs bad (Str.toLowerCase description))).
Proof.
  intros Ht Hd.
  rewrite passesSafeFilter_strict by reflexivity.
  rewrite (filterText_strings fields title description Ht Hd). cbn [bind].
  rewrite toLowerCase_app.
  change (Str.toLowerCase (" " ++ description))
    with (String " " (Str.toLowerCase description)).
  split.
  - intros H. apply Ok_inj in H.
    apply scanBlacklist_false in H as (bad & Hin & Hocc).
    exists bad. split; [assumption|].
    destruct (proj1 (Forall_forall _ _) blacklist_terms bad Hin) as [Hne Hl].
    now apply (occurs_across " " bad).
  - intros (bad & Hin & Hocc). f_equal. apply scanBlacklist_false.
    exists bad. split; [assumption|].
    destruct Hocc as [H|H]; [now apply occurs_left|].
    apply occurs_right. change (String " " (Str.toLowerCase description))
      with (" " ++ Str.toLowerCase description). now apply occurs_right.
Qed.

(** X15.  The filter is case-insensitive: two records whose titles
    and whose descriptions differ only in letter case get the same
    verdict in every mode. *)
Theorem filter_ignores_letter_case
    (fields1 fields2 : list (string * JsVal)) (mode : JsVal)
    (title1 title2 description1 description2 : string) :
  prop (JObj fields1) "title" = JStr title1 ->
  prop (JObj fields2) "title" = JStr title2 ->
  prop (JObj fields1) "description" = JStr description1 ->
  prop (JObj fields2) "description" = JStr description2 ->
  Str.toLowerCase title1 = Str.toLowerCase title2 ->
  Str.toLowerCase description1 = Str.toLowerCase description2 ->
  passesSafeFilter (JObj fields1) mode = passesSafeFilter (JObj fields2) mode.
Proof.
  intros Ht1 Ht2 Hd1 Hd2 Et Ed.
  destruct (strictEqStr (effectiveMode mode) "Strict") eqn:E.
  - apply strictEqStr_true in E.
    rewrite !passesSafeFilter_strict by (assumption || reflexivity).
    rewrite (filterText_strings fields1 title1 description1 Ht1 Hd1).
    rewrite (filterText_strings fields2 title2 description2 Ht2 Hd2).
    cbn [bind]. rewrite !toLowerCase_app.
    change (Str.toLowerCase (" " ++ description1))
      with (String " " (Str.toLowerCase description1)).
    change (Str.toLowerCase (" " ++ description2))
      with (String " " (Str.toLowerCase description2)).
    now rewrite Et, Ed.
  - apply strictEqStr_false in E.
    now rewrite !passesSafeFilter_open by (assumption || reflexivity).
Qed.

End FilterMatches.

Lemma rejected_by_title_or_description_witness :
  passesSafeFilter
    (JObj [("title", JStr "File:Beach.jpg");
           ("description", JStr "A <nude> study")]%string)
    (JStr "Strict")
  = Ok false.
Proof.
  apply (rejected_by_title_or_description
           [("title", JStr "File:Beach.jpg");
            ("description", JStr "A <nude> study")]%string
           "File:Beach.jpg" "A <nude> study" eq_refl eq_refl).
  exists "nude"%string. split; [simpl; tauto|].
  right. now exists "a <"%string, "> study"%string.
Defined.

Lemma filter_ignores_letter_case_witness :
  passesSafeFilter
    (JObj [("title", JStr "TOPLESS Tower"); ("description", JStr "Pisa")]%string)
    (JStr "Strict")
  = passesSafeFilter
      (JObj [("title", JStr "topless tower"); ("description", JStr "PISA")]%string)
      (JStr "Strict").
Proof.
  apply (filter_ignores_letter_case
           [("title", JStr "TOPLESS Tower"); ("description", JStr "Pisa")]%string
           [("title", JStr "topless tower"); ("description", JStr "PISA")]%string
           (JStr "Strict") "TOPLESS Tower" "topless tower" "Pisa" "PISA");
    reflexivity.
Defined.

(* ================================================================= *)
(** ** The normalizer: what a result holds *)

Section ResultFields.

Local Open Scope string_scope.

Lemma Lacks_app (c : ascii) (a b : string) :
  Lacks c (a ++ b) <-> Lacks c a /\ Lacks c b.
Proof. induction a as [|d a IH]; simpl; tauto. Qed.

Lemma trimEnd_idem (s : string) : Str.trimEnd (Str.trimEnd s) = Str.trimEnd s.
Proof.
  induction s as [|c s IH]; [reflexivity|]. cbn [Str.trimEnd].
  destruct (Str.trimEnd s) as [|d r] eqn:E.
  - destruct (Str.isWhiteSpace c) eqn:W; [reflexivity|].
    cbn [Str.trimEnd]. now rewrite W.
  - cbn [Str.trimEnd]. cbn [Str.trimEnd] in IH.
    destruct (Str.trimEnd r) eqn:F.
    + destruct (Str.isWhiteSpace d); [discriminate|]. now rewrite IH.
    + now rewrite IH.
Qed.

Lemma trim_idem (s : string) : Str.trim (Str.trim s) = Str.trim s.
Proof.
  destruct (Str.trim s) as [|c r] eqn:E; [reflexivity|].
  assert (W := trim_head s c r E).
  unfold Str.trim at 1. cbn [Str.trimStart]. rewrite W.
  rewrite <- E. unfold Str.trim. apply trimEnd_idem.
Qed.

Lemma stripFrom_TagFree (s : string) :
  TagFree (Str.stripFrom None s)
  /\ forall h, Lacks ">" h -> TagFree (Str.stripFrom (Some h) s).
Proof.
  induction s as [|c s [IH1 IH2]]; split.
  - constructor.
  - intros h Hh. now apply TagFree_open.
  - cbn [Str.stripFrom]. destruct (c =? "<")%char eqn:E.
    + now apply IH2.
    + apply Ascii.eqb_neq in E. now constructor.
  - intros h Hh. cbn [Str.stripFrom]. destruct (c =? ">")%char eqn:E.
    + destruct h; [now apply TagFree_pair | assumption].
    + apply Ascii.eqb_neq in E. apply IH2. apply Lacks_app. simpl. tauto.
Qed.

Lemma TagFree_no_tag (t : string) : TagFree t -> ~ HasTag t.
Proof.
  induction 1 as [|c s Hc _ IH|s _ IH|s Hs];
    intros (pre & x & post & E & Hne & Hx).
  - destruct pre; discriminate.
  - destruct pre as [|d pre]; simpl in E; injection E as E1 E2; [congruence|].
    apply IH. now exists pre, x, post.
  - destruct pre as [|d pre]; simpl in E.
    + injection E as E1. destruct x as [|e x]; [congruence|]. simpl in E1.
      injection E1 as E1 _. destruct Hx as [Hx _]. congruence.
    + injection E as E1 E2. destruct pre as [|e pre]; simpl in E2;
        [discriminate|].
      injection E2 as E2 E3. apply IH. now exists pre, x, post.
  - destruct pre as [|d pre]; simpl in E.
    + injection E as E1. subst s.
      apply Lacks_app in Hs as [_ [Hs _]]. congruence.
    + injection E as E1 E2. subst s.
      apply Lacks_app in Hs as [_ [_ Hs]].
      apply Lacks_app in Hs as [_ [Hs _]]. congruence.
Qed.

Lemma HasTag_within (a u b : string) : HasTag u -> HasTag (a ++ u ++ b).
Proof.
  intros (pre & x & post & -> & Hne & Hx).
  exists (a ++ pre), x, (post ++ b). split; [|tauto].
  rewrite !append_assoc. simpl. now rewrite !append_assoc.
Qed.

(** What [cleanDescription] returns has no tag left and no white space
    around it. *)
Lemma cleanDescription_clean (v : JsVal) :
  ~ HasTag (cleanDescription v)
  /\ Str.trim (cleanDescription v) = cleanDescription v.
Proof.
  destruct v as [| | | |s| |]; simpl;
    try (split; [|reflexivity];
         intros (pre & x & post & E & _); destruct pre; discriminate).
  split; [|apply trim_idem].
  intros H. destruct (trim_split (Str.stripTags s)) as (pre & post & _ & _ & E).
  apply (TagFree_no_tag (Str.stripTags s)).
  - apply stripFrom_TagFree.
  - rewrite E. now apply HasTag_within.
Qed.

(** X16.  The description of every result is a string without any tag
    (no [<], one or more characters other than [>], [>]) and without
    white space at its start or end. *)
Theorem description_is_clean_text (p r : JsVal) :
  normalize p = Ok r ->
  exists d,
    prop r "description" = JStr d
    /\ ~ HasTag d
    /\ Str.trim d = d.
Proof.
  intros H. apply normalize_fields in H as (thumbnail & hostPage & -> & _).
  eexists. split; [reflexivity|]. apply cleanDescription_clean.
Qed.

(** X17.  An "ImageDescription" that is a non-empty text without [<]
    and without white space around it is the description of the result,
    unchanged. *)
Theorem plain_description_is_kept (p r first : JsVal) (rest : list JsVal)
    (s : string) :
  normalize p = Ok r ->
  prop p "imageinfo" = JArr (first :: rest) ->
  prop (prop (prop first "extmetadata") "ImageDescription") "value" = JStr s ->
  s <> "" ->
  Lacks "<" s ->
  Str.trim s = s ->
  prop r "description" = JStr s.
Proof.
  intros H Hii Hv Hne Hl Ht.
  apply normalize_fields in H as (thumbnail & hostPage & -> & _).
  rewrite Hii. cbn [firstImageInfo]. rewrite Hv.
  change (prop (JObj _) "description")
    with (JStr (cleanDescription
                  (orElse (orElse (JStr s) (prop p "extract")) (JStr "")))).
  rewrite orElse_chain. cbn [truthy].
  destruct (s =? "") eqn:E; [apply String.eqb_eq in E; congruence|].
  cbn [negb cleanDescription]. now rewrite stripTags_plain, Ht.
Qed.

End ResultFields.

Lemma description_is_clean_text_witness :
  exists d,
    prop (JObj [ ("id", JNum (Int 6)); ("title", JStr "File:Cat.jpg");
                 ("thumbnail", JNull);
                 ("contentUrl", JStr "https://upload.wikimedia.org/cat.jpg");
                 ("hostPage", JStr "https://commons.wikimedia.org/wiki/File%3ACat.jpg");
                 ("width", JNull); ("height", JNull);
                 ("description", JStr "A cat") ]%string) "description"
    = JStr d
    /\ ~ HasTag d
    /\ Str.trim d = d.
Proof.
  exact (description_is_clean_text undescribedPage _ eq_refl).
Defined.

Lemma plain_description_is_kept_witness :
  prop (JObj [ ("id", JNum (Int 9)); ("title", JStr "File:Owl.jpg");
               ("thumbnail", JNull); ("contentUrl", JNull);
               ("hostPage", JStr "https://commons.wikimedia.org/wiki/File%3AOwl.jpg");
               ("width", JNull); ("height", JNull);
               ("description", JStr "An owl at night") ]%string) "description"
  = JStr "An owl at night".
Proof.
  apply (plain_description_is_kept
           (JObj [ ("pageid", JNum (Int 9)); ("title", JStr "File:Owl.jpg");
                   ("imageinfo",
                    JArr [JObj [("extmetadata",
                                 JObj [("ImageDescription",
                                        JObj [("value", JStr "An owl at night")])])]]) ]%string)
           _
           (JObj [("extmetadata",
                   JObj [("ImageDescription",
                          JObj [("value", JStr "An owl at night")])])]%string)
           [] "An owl at night"%string);
    try reflexivity.
  - discriminate.
  - simpl. repeat split; discriminate.
Defined.

Section ResultRecord.

Local Open Scope string_scope.

(** The record a successful [normalize] returns, field by field. *)
Lemma normalize_record (p r : JsVal) :
  normalize p = Ok r ->
  let ii := firstImageInfo (prop p "imageinfo") in
  exists hostPage,
    r = JObj [ ("id", prop p "pageid");
               ("title", prop p "title");
               ("thumbnail",
                orElse (orElse (prop (prop p "thumbnail") "source")
                               (if truthy ii then prop ii "thumburl" else JNull))
                       JNull);
               ("contentUrl", orElse (prop ii "url") JNull);
               ("hostPage", hostPage);
               ("width", orElse (prop ii "width") JNull);
               ("height", orElse (prop ii "height") JNull);
               ("description",
                JStr (cleanDescription
                        (orElse (orElse
                           (prop (prop (prop ii "extmetadata") "ImageDescription") "value")
                           (prop p "extract")) (JStr "")))) ]
    /\ present p = true
    /\ ((truthy (prop p "fullurl") = true /\ hostPage = prop p "fullurl")
        \/ (truthy (prop p "fullurl") = false
            /\ exists t enc,
                 toStr (prop p "title") = Ok t
                 /\ Str.encodeURIComponent t = Ok enc
                 /\ hostPage
                    = JStr ("https://commons.wikimedia.org/wiki/" ++ enc))).
Proof.
  intros H ii. subst ii. unfold normalize, get in H.
  assert (P : present p = true) by (destruct p; try reflexivity; discriminate).
  assert (E : (match p with JUndef | JNull => Throw TypeError
               | _ => Ok (prop p "imageinfo") end) = Ok (prop p "imageinfo")).
  { destruct p; try reflexivity; discriminate. }
  rewrite E in H. cbn [bind] in H.
  destruct (truthy (prop p "fullurl")) eqn:F.
  - cbn [bind] in H. injection H as <-. eexists. split; [reflexivity|].
    split; [assumption|]. left. now split.
  - destruct (toStr (prop p "title")) as [t|] eqn:T; [|discriminate].
    cbn [bind] in H.
    destruct (Str.encodeURIComponent t) as [enc|] eqn:U; [|discriminate].
    cbn [bind] in H. injection H as <-. eexists. split; [reflexivity|].
    split; [assumption|]. right. split; [reflexivity|]. now exists t, enc.
Qed.

Lemma orElse_null (v : JsVal) : NullOrTruthy (orElse v JNull).
Proof.
  unfold NullOrTruthy, orElse. destruct (truthy v) eqn:E; auto.
Qed.

(** X18.  A result copies the page id and the title as they are; its
    thumbnail, content URL, width and height are each [null] or a truthy
    value (never [undefined], an empty string or 0); its host page is
    always truthy. *)
Theorem result_fields_are_null_or_truthy (p r : JsVal) :
  normalize p = Ok r ->
  prop r "id" = prop p "pageid"
  /\ prop r "title" = prop p "title"
  /\ NullOrTruthy (prop r "thumbnail")
  /\ NullOrTruthy (prop r "contentUrl")
  /\ NullOrTruthy (prop r "width")
  /\ NullOrTruthy (prop r "height")
  /\ truthy (prop r "hostPage") = true.
Proof.
  intros H. apply normalize_record in H as (hostPage & -> & _ & Hh).
  split; [reflexivity|]. split; [reflexivity|].
  split; [apply orElse_null|]. split; [apply orElse_null|].
  split; [apply orElse_null|]. split; [apply orElse_null|].
  change (prop (JObj _) "hostPage") with hostPage.
  destruct Hh as [[F ->]|[_ (t & enc & _ & _ & ->)]]; [assumption | reflexivity].
Qed.


Lemma AllChars_app (ok : ascii -> bool) (a b : string) :
  AllChars ok (a ++ b) <-> AllChars ok a /\ AllChars ok b.
Proof. induction a as [|c a IH]; simpl; tauto. Qed.

(** A code unit below 256 is no surrogate, and its escape is made of
    unreserved characters, [%] and hexadecimal digits. *)
Lemma escapeCode_safe (c : ascii) :
  Str.isLowSurrogate (Str.code c) = false
  /\ Str.isHighSurrogate (Str.code c) = false
  /\ AllChars isUriSafe (Str.escapeCode (Str.code c)).
Proof.
  destruct c as [[] [] [] [] [] [] [] []]; vm_compute; tauto.
Qed.

(** On a string of code units below 256 [encodeURIComponent] returns,
    and what it returns is safe in a URL. *)
Lemma encodeURIComponent_safe (s : string) :
  exists enc, Str.encodeURIComponent s = Ok enc /\ AllChars isUriSafe enc.
Proof.
  unfold Str.encodeURIComponent.
  induction s as [|c s (tail & E & Htail)]; [exists EmptyString; now split|].
  destruct (escapeCode_safe c) as (L & Hi & Safe).
  cbn [Str.units Str.encodeUnits]. rewrite L, Hi, E.
  eexists. split; [reflexivity|]. apply AllChars_app. now split.
Qed.

(** A surrogate outside a pair is refused, a pair is one code point. *)
Lemma encodeUnits_surrogates :
  Str.encodeUnits [55357] = Throw URIError
  /\ Str.encodeUnits [56832] = Throw URIError
  /\ Str.encodeUnits [55357; 97] = Throw URIError
  /\ Str.encodeUnits [55357; 56832] = Ok "%F0%9F%98%80".
Proof. repeat split. Qed.

(** X20.  The host page of a result is the page's [fullurl] when that
    is truthy; otherwise it is the Commons wiki address followed by the
    percent-encoded title, which holds only unreserved characters, [%]
    and hexadecimal digits. *)
Theorem hostPage_of_result (p r : JsVal) :
  normalize p = Ok r ->
  (truthy (prop p "fullurl") = true /\ prop r "hostPage" = prop p "fullurl")
  \/ (truthy (prop p "fullurl") = false
      /\ exists t enc,
           toStr (prop p "title") = Ok t
           /\ Str.encodeURIComponent t = Ok enc
           /\ prop r "hostPage"
              = JStr ("https://commons.wikimedia.org/wiki/" ++ enc)
           /\ AllChars isUriSafe enc).
Proof.
  intros H. apply normalize_record in H as (hostPage & -> & _ & Hh).
  change (prop (JObj _) "hostPage") with hostPage.
  destruct Hh as [Hh|[F (t & enc & T & U & ->)]]; [now left|].
  right. split; [assumption|]. exists t, enc.
  split; [assumption|]. split; [assumption|]. split; [reflexivity|].
  destruct (encodeURIComponent_safe t) as (enc' & U' & Safe).
  rewrite U in U'. injection U' as <-. exact Safe.
Qed.

(** X21.  A page that is not a file page (its [imageinfo] is not a
    non-empty array) and has no thumbnail source gives a result without
    image, which the filter callback drops in every mode. *)
Theorem page_without_image_is_dropped (p r mode : JsVal) :
  normalize p = Ok r ->
  (forall first rest, prop p "imageinfo" <> JArr (first :: rest)) ->
  truthy (prop (prop p "thumbnail") "source") = false ->
  prop r "thumbnail" = JNull
  /\ prop r "contentUrl" = JNull
  /\ keep mode r = Ok false.
Proof.
  intros H Hno Hsrc. apply normalize_record in H as (hostPage & -> & _ & _).
  assert (E : truthy (firstImageInfo (prop p "imageinfo")) = false
              /\ prop (firstImageInfo (prop p "imageinfo")) "url" = JUndef).
  { destruct (prop p "imageinfo") as [| | | | |items|]; try (split; reflexivity).
    destruct items as [|first rest]; [split; reflexivity|].
    now destruct (Hno first rest). }
  destruct E as [E1 E2].
  assert (T : orElse (orElse (prop (prop p "thumbnail") "source")
                 (if truthy (firstImageInfo (prop p "imageinfo"))
                  then prop (firstImageInfo (prop p "imageinfo")) "thumburl"
                  else JNull)) JNull = JNull).
  { unfold orElse. now rewrite Hsrc, E1. }
  assert (C : orElse (prop (firstImageInfo (prop p "imageinfo")) "url") JNull
              = JNull) by now rewrite E2.
  unfold keep. cbn [get bind].
  change (prop (JObj _) "thumbnail")
    with (orElse (orElse (prop (prop p "thumbnail") "source")
            (if truthy (firstImageInfo (prop p "imageinfo"))
             then prop (firstImageInfo (prop p "imageinfo")) "thumburl"
             else JNull)) JNull).
  change (prop (JObj _) "contentUrl")
    with (orElse (prop (firstImageInfo (prop p "imageinfo")) "url") JNull).
  rewrite T, C. repeat split.
Qed.

End ResultRecord.

Lemma result_fields_are_null_or_truthy_witness :
  NullOrTruthy JNull /\ NullOrTruthy (JStr "https://upload.wikimedia.org/cat.jpg").
Proof.
  destruct (result_fields_are_null_or_truthy undescribedPage _ eq_refl)
    as (_ & _ & H1 & H2 & _).
  split; [exact H1 | exact H2].
Defined.

Lemma hostPage_of_result_witness :
  (truthy JUndef = true
   /\ JStr "https://commons.wikimedia.org/wiki/File%3ACat.jpg" = JUndef)
  \/ (truthy JUndef = false
      /\ exists t enc,
           Ok "File:Cat.jpg"%string = Ok t
           /\ Str.encodeURIComponent t = Ok enc
           /\ JStr "https://commons.wikimedia.org/wiki/File%3ACat.jpg"
              = JStr ("https://commons.wikimedia.org/wiki/" ++ enc)%string
           /\ AllChars isUriSafe enc).
Proof.
  exact (hostPage_of_result undescribedPage _ eq_refl).
Defined.

Lemma page_without_image_is_dropped_witness :
  keep (JStr "Off")
    (JObj [ ("id", JNum (Int 12)); ("title", JStr "Cat");
            ("thumbnail", JNull); ("contentUrl", JNull);
            ("hostPage", JStr "https://commons.wikimedia.org/wiki/Cat");
            ("width", JNull); ("height", JNull);
            ("description", JStr "Felis catus") ]%string)
  = Ok false.
Proof.
  apply (page_without_image_is_dropped
           (JObj [ ("pageid", JNum (Int 12)); ("title", JStr "Cat");
                   ("extract", JStr "Felis catus") ]%string)
           _ (JStr "Off") eq_refl).
  - discriminate.
  - reflexivity.
Defined.

(* ================================================================= *)
(** ** One result for each page record *)

Section ResultCount.

Lemma indexed_named_perm (ps : list (string * JsVal)) :
  Permutation (map snd (indexed ps) ++ map snd (named ps)) (map snd ps).
Proof.
  induction ps as [|[k v] ps IH]; [constructor|].
  unfold indexed, named in *. cbn [flat_map filter fst snd map].
  destruct (arrayIndex k) as [n|].
  - cbn [app map snd]. now constructor.
  - cbn [app map snd]. apply Permutation_sym, Permutation_cons_app.
    now apply Permutation_sym.
Qed.

Lemma enumerate_perm (ps : list (string * JsVal)) :
  NoDup (map fst ps) -> Permutation (enumerate ps) (map snd ps).
Proof.
  intros H. unfold enumerate. rewrite (ownProps_NoDup ps H).
  rewrite (Permutation_map snd (sort_perm (indexed ps))).
  apply indexed_named_perm.
Qed.

Lemma readResponse_results (query : string) (res : UpstreamResponse)
    (payload : JsVal) (ps : list (string * JsVal)) (data : SearchData) :
  json res = Ok payload ->
  prop (prop payload "query") "pages" = JObj ps ->
  readResponse query res = Ok data ->
  mapM normalize (enumerate ps) = Ok (data_results data).
Proof.
  intros Hjson Hpages H. unfold readResponse in H.
  destruct (ok res); [|discriminate]. cbn [negb] in H.
  rewrite Hjson in H. cbn [bind] in H. unfold get in H.
  assert (E : (match payload with JUndef | JNull => Throw TypeError
               | _ => Ok (prop payload "query") end)
              = Ok (prop payload "query")).
  { destruct payload; try reflexivity; discriminate. }
  rewrite E in H. cbn [bind] in H. rewrite Hpages in H.
  change (orElse (JObj ps) (JObj [])) with (JObj ps) in H.
  cbn [values] in H.
  destruct (mapM normalize _) as [results|]; [|discriminate].
  cbn [bind] in H. now injection H as <-.
Qed.

(** X22.  When [searchWikimedia] succeeds on a page mapping without
    repeated keys, there is exactly one result for each page record: the
    results are the normalizations of the records taken in some order,
    none lost and none twice. *)
Theorem one_result_for_each_page (fetch : Upstream) (query : string)
    (page per_page : option Num) (res : UpstreamResponse)
    (payload : JsVal) (ps : list (string * JsVal)) (data : SearchData) :
  searchWikimedia fetch query page per_page
  = (upstreamEvents query page per_page, Ok data) ->
  fetch (upstreamRequest query (defaultTo (Int 1) page) (defaultTo (Int 24) per_page))
  = Ok res ->
  json res = Ok payload ->
  prop (prop payload "query") "pages" = JObj ps ->
  NoDup (map fst ps) ->
  List.length (data_results data) = List.length ps
  /\ exists records,
       Permutation records (map snd ps)
       /\ Forall2 (fun record result => normalize record = Ok result)
                  records (data_results data).
Proof.
  intros Hrun Hres Hjson Hpages Hnodup.
  unfold searchWikimedia in Hrun. fold (defaultTo (Int 1) page) in Hrun.
  fold (defaultTo (Int 24) per_page) in Hrun.
  rewrite Hres in Hrun. cbn [bind] in Hrun. injection Hrun as Hrun.
  apply (readResponse_results query res payload ps data Hjson Hpages) in Hrun.
  apply mapM_Forall2 in Hrun.
  assert (P := enumerate_perm ps Hnodup).
  split.
  - rewrite <- (Forall2_length Hrun), (Permutation_length P).
    apply length_map.
  - now exists (enumerate ps).
Qed.

End ResultCount.

Lemma one_result_for_each_page_witness :
  exists data,
    snd (searchWikimedia (answering searchPayload) "cat" None None) = Ok data
    /\ List.length (data_results data) = 2%nat.
Proof.
  eexists. split; [reflexivity|].
  exact (proj1 (one_result_for_each_page (answering searchPayload) "cat"
                  None None (mkUpstream true (Int 200) (Ok searchPayload))
                  searchPayload rawPages _ eq_refl eq_refl eq_refl eq_refl
                  ltac:(repeat constructor; simpl; intuition discriminate))).
Defined.

(* ================================================================= *)
(** ** The allowed origins *)

Section Cors.

Local Open Scope string_scope.

Lemma splitOn_pieces (sep : ascii) (s : string) :
  splitOn sep s <> [] /\ Forall (Lacks sep) (splitOn sep s).
Proof.
  induction s as [|c s [IH1 IH2]]; cbn [splitOn].
  - split; [discriminate | repeat constructor].
  - destruct (c =? sep)%char eqn:E.
    + split; [discriminate|]. constructor; [exact I | assumption].
    + apply Ascii.eqb_neq in E.
      destruct (splitOn sep s) as [|piece pieces]; [now destruct IH1|].
      split; [discriminate|]. inversion IH2; subst.
      constructor; [simpl; tauto | assumption].
Qed.

Lemma splitOn_one (sep : ascii) (a : string) :
  Lacks sep a -> splitOn sep a = [a].
Proof.
  induction a as [|c a IH]; [reflexivity|]. intros [Hc Ha].
  apply Ascii.eqb_neq in Hc. cbn [splitOn]. rewrite Hc, IH; trivial.
Qed.

Lemma splitOn_cons (sep : ascii) (a b : string) :
  Lacks sep a -> splitOn sep (a ++ String sep b) = a :: splitOn sep b.
Proof.
  induction a as [|c a IH]; intros Ha; cbn [append splitOn].
  - now rewrite Ascii.eqb_refl.
  - destruct Ha as [Hc Ha]. apply Ascii.eqb_neq in Hc.
    rewrite Hc, IH; trivial.
Qed.

Lemma splitOn_concat (o : string) (origins : list string) :
  Forall (Lacks ",") (o :: origins) ->
  splitOn "," (String.concat "," (o :: origins)) = o :: origins.
Proof.
  revert o; induction origins as [|o' origins IH]; intros o H.
  - inversion H; subst. now apply splitOn_one.
  - inversion H as [|? ? Ho Hrest]; subst.
    change (String.concat "," (o :: o' :: origins))
      with (o ++ String "," (String.concat "," (o' :: origins))).
    rewrite splitOn_cons by assumption. now rewrite IH.
Qed.

Lemma Lacks_trim (c : ascii) (s : string) : Lacks c s -> Lacks c (Str.trim s).
Proof.
  intros H. destruct (trim_split s) as (pre & post & _ & _ & E).
  rewrite E in H. apply Lacks_app in H as [_ H].
  now apply Lacks_app in H as [H _].
Qed.

Lemma envOr_empty (variable : option string) :
  envOr variable "" = match variable with Some s => s | None => "" end.
Proof.
  destruct variable as [s|]; [|reflexivity]. unfold envOr.
  destruct (s =? "") eqn:E; [|reflexivity].
  apply String.eqb_eq in E. now subst.
Qed.

(** X23.  Every allowed origin read from [ALLOWED_ORIGINS] is a
    non-empty text without comma and without white space around it. *)
Theorem allowed_origins_are_plain (variable : option string) (o : string) :
  In o (allowedOriginsOf variable) -> PlainOrigin o.
Proof.
  unfold allowedOriginsOf. intros H. apply filter_In in H as [H Hne].
  apply in_map_iff in H as (piece & <- & H).
  destruct (splitOn_pieces "," (envOr variable "")) as [_ F].
  rewrite Forall_forall in F. specialize (F piece H).
  repeat split.
  - intros E. rewrite E in Hne. discriminate.
  - now apply Lacks_trim.
  - apply trim_idem.
Qed.

(** X24.  Writing a list of origins with commas between them and
    reading it back gives the same list, for origins that are not empty
    and have no comma and no white space around them. *)
Theorem allowed_origins_round_trip (origins : list string) :
  Forall PlainOrigin origins ->
  allowedOriginsOf (Some (String.concat "," origins)) = origins.
Proof.
  intros H. unfold allowedOriginsOf. rewrite envOr_empty.
  destruct origins as [|o origins]; [reflexivity|].
  rewrite splitOn_concat.
  2:{ eapply Forall_impl; [|exact H]. intros a (_ & Ha & _). exact Ha. }
  induction H as [|a l (Hne & _ & Ht) _ IH]; [reflexivity|].
  cbn [map filter]. rewrite Ht.
  destruct (a =? "") eqn:E; [apply String.eqb_eq in E; congruence|].
  cbn [negb]. now rewrite IH.
Qed.

Lemma includesOrigin_In (allowed : list string) (o : string) :
  includesOrigin allowed o = true <-> In o allowed.
Proof.
  unfold includesOrigin. rewrite existsb_exists. split.
  - intros (a & Hin & E). apply String.eqb_eq in E. now subst.
  - intros H. exists o. split; [assumption | apply String.eqb_refl].
Qed.

(** X25.  The CORS callback accepts a request exactly when it has no
    [Origin] header (or an empty one), when no origin is configured, or
    when its origin is one of the configured origins, character for
    character; it refuses every other request with the error "Not
    allowed by CORS". *)
Theorem cors_accepts_listed_origins (allowed : list string)
    (origin : option string) :
  (corsOrigin allowed origin = Ok true
   <-> origin = None \/ origin = Some "" \/ allowed = []
       \/ exists o, origin = Some o /\ In o allowed)
  /\ (corsOrigin allowed origin = Ok true
      \/ corsOrigin allowed origin = Throw (Error "Not allowed by CORS")).
Proof.
  unfold corsOrigin. destruct origin as [o|]; [|split; [tauto | now left]].
  destruct (o =? "") eqn:E.
  { apply String.eqb_eq in E. subst. split; [tauto | now left]. }
  apply String.eqb_neq in E.
  destruct allowed as [|a allowed]; cbn [List.length Nat.eqb].
  { split; [tauto | now left]. }
  destruct (includesOrigin (a :: allowed) o) eqn:I.
  - apply includesOrigin_In in I. split; [|now left].
    split; [|reflexivity]. intros _. right; right; right. now exists o.
  - split; [|now right]. split; [discriminate|].
    intros [H|[H|[H|(o' & H & Hin)]]]; try discriminate; try congruence.
    injection H as <-. apply includesOrigin_In in Hin. congruence.
Qed.

Lemma cors_accepted_without_list (origin : option string) :
  corsOrigin [] origin = Ok true.
Proof.
  unfold corsOrigin. destruct origin as [o|]; [|reflexivity].
  now destruct (o =? "").
Qed.

Lemma blank_pieces (s : string) :
  AllChars (fun c => Str.isWhiteSpace c || (c =? ",")%char) s ->
  Forall Blank (splitOn "," s).
Proof.
  induction s as [|c s IH]; cbn [splitOn AllChars].
  - repeat constructor.
  - intros [Hc Hs]. specialize (IH Hs).
    destruct (c =? ",")%char eqn:E.
    + constructor; [exact I | assumption].
    + rewrite orb_false_r in Hc.
      destruct (splitOn "," s) as [|piece pieces];
        [repeat constructor; assumption|].
      inversion IH; subst. constructor; [simpl; tauto | assumption].
Qed.

(** X26.  When [ALLOWED_ORIGINS] is unset, or holds nothing but white
    space and commas, no origin is configured and the CORS callback
    accepts every request. *)
Theorem blank_allowed_origins_accept_all (variable : option string)
    (origin : option string) :
  match variable with
  | None => True
  | Some s => AllChars (fun c => Str.isWhiteSpace c || (c =? ",")%char) s
  end ->
  allowedOriginsOf variable = []
  /\ corsOrigin (allowedOriginsOf variable) origin = Ok true.
Proof.
  intros H.
  assert (E : allowedOriginsOf variable = []).
  { unfold allowedOriginsOf. rewrite envOr_empty.
    assert (F : Forall Blank
                  (splitOn "," (match variable with Some s => s | None => "" end))).
    { destruct variable as [s|]; [now apply blank_pieces | repeat constructor]. }
    induction F as [|piece pieces B _ IH]; [reflexivity|].
    cbn [map filter]. apply trim_empty in B. rewrite B. exact IH. }
  rewrite E. split; [reflexivity|].
  apply cors_accepted_without_list.
Qed.

End Cors.

Lemma allowed_origins_are_plain_witness :
  PlainOrigin "https://app.example".
Proof.
  apply (allowed_origins_are_plain
           (Some " https://app.example , http://localhost:5173,,"%string)).
  vm_compute. left. reflexivity.
Defined.

Lemma allowed_origins_round_trip_witness :
  allowedOriginsOf (Some "https://app.example,http://localhost:5173"%string)
  = ["https://app.example"; "http://localhost:5173"]%string.
Proof.
  apply (allowed_origins_round_trip
           ["https://app.example"; "http://localhost:5173"]%string).
  repeat constructor; simpl; try discriminate; repeat split; discriminate.
Defined.

Lemma blank_allowed_origins_accept_all_witness :
  allowedOriginsOf (Some " , ,"%string) = []
  /\ corsOrigin (allowedOriginsOf (Some " , ,"%string))
                (Some "https://anywhere.example"%string)
     = Ok true.
Proof.
  apply (blank_allowed_origins_accept_all (Some " , ,"%string)).
  simpl. tauto.
Defined.

(* ================================================================= *)
(** ** Strict mode, end to end *)

Section StrictResults.

Local Open Scope string_scope.

Variable fetch : Upstream.

Lemma filterText_of (item : JsVal) (title description : string) :
  prop item "title" = JStr title ->
  prop item "description" = JStr description ->
  filterText item = Ok (title ++ " " ++ description).
Proof.
  intros Ht Hd. unfold filterText. now rewrite Ht, Hd, !toStr_text.
Qed.

Lemma scanBlacklist_true (lower : string) (terms : list string) (bad : string) :
  scanBlacklist lower terms = true -> In bad terms -> ~ Occurs bad lower.
Proof.
  intros H Hin Hocc.
  assert (F : scanBlacklist lower terms = false)
    by (apply scanBlacklist_false; now exists bad).
  congruence.
Qed.

Lemma keep_strict (item : JsVal) :
  keep (JStr "Strict") item = Ok true ->
  truthy item = true /\ passesSafeFilter item (JStr "Strict") = Ok true.
Proof.
  unfold keep. destruct (get item "thumbnail") as [t|]; [|discriminate].
  cbn [bind]. destruct (negb (truthy t) && negb (truthy (prop item "contentUrl")));
    [discriminate|].
  intros H. split; [|assumption].
  destruct (truthy item) eqn:E; [reflexivity|].
  unfold passesSafeFilter in H. cbv zeta in H. rewrite E in H. discriminate.
Qed.

(** [passesSafeFilter] rejects an item that is falsy ([null],
    [undefined], [false], 0, [NaN] or the empty string) in every mode,
    the open modes included. *)
Theorem falsy_item_is_rejected (item mode : JsVal) :
  truthy item = false -> passesSafeFilter item mode = Ok false.
Proof.
  intros H. unfold passesSafeFilter. cbv zeta. now rewrite H.
Qed.

(** X27.  In a search body answered in Strict mode ([safe] absent,
    empty or "Strict"), no result with a text title has a blacklisted
    term in its lower-cased title or in its lower-cased description. *)
Theorem strict_results_hold_no_term (query : Query)
    events c qy pg pp count results :
  handler fetch query = (events, mkResponse c (SearchBody qy pg pp count results)) ->
  orElse (safe query) (JStr "Strict") = JStr "Strict" ->
  Forall (fun r =>
            forall title description bad,
              prop r "title" = JStr title ->
              prop r "description" = JStr description ->
              In bad BLACKLIST ->
              ~ Occurs bad (Str.toLowerCase title)
              /\ ~ Occurs bad (Str.toLowerCase description))
         results.
Proof.
  intros H Hmode. apply handler_200 in H
    as (n & m & res & data & _ & _ & _ & _ & _ & _ & _ & _ & _ & Hk & _).
  rewrite Hmode in Hk. apply filterM_kept in Hk.
  eapply Forall_impl; [|exact Hk]. intros r K title description bad Ht Hd Hin.
  apply keep_strict in K as [Hr K].
  rewrite passesSafeFilter_strict in K by (assumption || reflexivity).
  rewrite (filterText_of r title description Ht Hd) in K. cbn [bind] in K.
  apply Ok_inj in K.
  assert (N := scanBlacklist_true _ _ bad K Hin).
  rewrite toLowerCase_app in N.
  split; intros O; apply N.
  - now apply occurs_left.
  - apply occurs_right.
    change (Str.toLowerCase (" " ++ description))
      with (" " ++ Str.toLowerCase description).
    now apply occurs_right.
Qed.

(** X28.  When [parseInt] finds no number in [page], the upstream is
    asked for the offset "NaN", and a search body reports the page
    [NaN]: the floor at 1 does not apply. *)
Theorem page_that_is_no_number (query : Query) (text : string) (m : Num) :
  readQ (q query) = Ok text ->
  text <> "" ->
  readInt (page query) "1" = Ok NaN ->
  readInt (per_page query) "24" = Ok m ->
  (exists request,
     upstreamCalls (fst (handler fetch query)) = [request]
     /\ param "gsroffset" (params request) = Some "NaN")
  /\ (forall events c qy pg pp count results,
        handler fetch query
        = (events, mkResponse c (SearchBody qy pg pp count results)) ->
        pg = NaN).
Proof.
  intros Hq Hne Hn Hm. split.
  - exists (requestOf text NaN m). split; [|reflexivity].
    unfold handler. rewrite (searchRoute_calls fetch query text _ _ Hq Hne Hn Hm).
    destruct (let* res := fetch _ in _); reflexivity.
  - intros events c qy pg pp count results H.
    apply handler_200 in H as (n' & m' & _ & _ & _ & _ & Hn' & _ & -> & _).
    rewrite Hn in Hn'. now injection Hn' as <-.
Qed.

End StrictResults.

Lemma falsy_item_is_rejected_witness :
  passesSafeFilter JNull (JStr "Off") = Ok false.
Proof. apply falsy_item_is_rejected. reflexivity. Defined.

Lemma strict_results_hold_no_term_witness :
  Forall (fun r =>
            forall title description bad,
              prop r "title" = JStr title ->
              prop r "description" = JStr description ->
              In bad BLACKLIST ->
              ~ Occurs bad (Str.toLowerCase title)
              /\ ~ Occurs bad (Str.toLowerCase description))
         (match body (snd (handler (answering searchPayload) (onlyQ "cat"))) with
          | SearchBody _ _ _ _ results => results
          | ErrorBody _ => []
          end).
Proof.
  exact (strict_results_hold_no_term (answering searchPayload) (onlyQ "cat")
           _ _ _ _ _ _ _ eq_refl eq_refl).
Defined.

Lemma page_that_is_no_number_witness :
  (exists request,
     upstreamCalls (fst (handler (answering searchPayload)
                           (mkQuery (JStr "cat") JUndef (JStr "two") JUndef)))
     = [request]
     /\ param "gsroffset" (params request) = Some "NaN"%string)
  /\ (forall events c qy pg pp count results,
        handler (answering searchPayload)
          (mkQuery (JStr "cat") JUndef (JStr "two") JUndef)
        = (events, mkResponse c (SearchBody qy pg pp count results)) ->
        pg = NaN).
Proof.
  apply (page_that_is_no_number (answering searchPayload)
           (mkQuery (JStr "cat") JUndef (JStr "two") JUndef)
           "cat"%string (Int 24)); try reflexivity.
  discriminate.
Defined.
